(** * Boredom Challenge: the session store and the session controller

    A shallow embedding of [src/lib/store.ts] (persistence, streaks, export,
    import) and of the script part of the timer component (the session state
    machine), with the properties of the specification proved, or refuted,
    on it.

    Representation choices, fixed once for the whole development:

    - A JavaScript number is an integer [Z]; the only division of the
      program, the attention-check success rate, is an exact rational [Q].
    - A value read out of [JSON.parse] is a [value]; [undefined] is the
      [None] of an [option value].
    - A [Date] object is its time value, milliseconds since the epoch; the
      local time zone is a fixed offset from UTC.
    - A calendar-date string [YYYY-MM-DD] is the number of the day it
      denotes (days since 1970-01-01); the string [NaN-NaN-NaN] that an
      invalid date formats to is [None].  For the years 1000..9999, where
      the unpadded year has four digits, the strings order as the day
      numbers do, and [N] sorts after every digit.
    - The browser built-ins whose result the program cannot fix
      ([JSON.parse], the [Date] constructor on an arbitrary value,
      [toISOString], the local time zone) are the fields of the class
      [Runtime]; the clock, the random source and the UUID source are
      arguments of the operations that read them.
    - [localStorage] holds what the program writes into it: the record of
      [saveData], on which [JSON.stringify] and [JSON.parse] are inverse,
      and the string of [setLastDuration]. *)

From Stdlib Require Import ZArith QArith Qround Qminmax Ascii.
From stdpp Require Import base decidable option list gmap sets sorting strings pretty.

Set Warnings "-register-all".
Local Open Scope Z_scope.

(* ===================================================================== *)
(** ** JavaScript values *)
(* ===================================================================== *)

Inductive value : Type :=
| VNull
| VBool (b : bool)
| VNum (n : Z)
| VStr (s : string)
| VArr (items : list value)
| VObj (fields : list (string * value)).

(** Abrupt completion: the only exception the modelled code can raise
    itself is the [TypeError] of a property read on [null]. *)
Inductive completion (A : Type) : Type :=
| Normal (a : A)
| Throw_TypeError.
Arguments Normal {A} a.
Arguments Throw_TypeError {A}.

#[export] Instance completion_ret : MRet completion := λ A a, Normal a.
#[export] Instance completion_bind : MBind completion := λ A B k c,
  match c with
  | Normal a => k a
  | Throw_TypeError => Throw_TypeError
  end.

(** [ToBoolean]. *)
Definition truthy (v : value) : bool :=
  match v with
  | VNull => false
  | VBool b => b
  | VNum n => negb (n =? 0)
  | VStr s => negb (String.eqb s "")
  | VArr _ | VObj _ => true
  end.

Definition truthy_opt (o : option value) : bool :=
  match o with Some v => truthy v | None => false end.

Fixpoint assoc (name : string) (fields : list (string * value)) : option value :=
  match fields with
  | [] => None
  | (k, v) :: rest => if String.eqb k name then Some v else assoc name rest
  end.

(** [v.name] for the property names the program reads ([sessions], [id],
    [startTime], ...): none of them is a built-in property of a string, a
    number, a boolean or an array, so only an object can have one; reading
    any property of [null] throws. *)
Definition get_prop (v : value) (name : string) : completion (option value) :=
  match v with
  | VNull => Throw_TypeError
  | VObj fields => Normal (assoc name fields)
  | _ => Normal None
  end.

(** [x || d]. *)
Definition or_default (x : option value) (d : value) : value :=
  match x with
  | Some v => if truthy v then v else d
  | None => d
  end.

Definition is_number (x : option value) : bool :=
  match x with Some (VNum _) => true | _ => false end.
Definition is_boolean (x : option value) : bool :=
  match x with Some (VBool _) => true | _ => false end.


(** [SameValueZero] between a value of the stored record and a value of a
    freshly parsed bundle.  The two come out of two different [JSON.parse]
    calls ([loadData] re-parses the stored text on every call), so an object
    or an array of one is never identical to one of the other. *)
Definition sameValueZero (a b : value) : bool :=
  match a, b with
  | VNull, VNull => true
  | VBool x, VBool y => Bool.eqb x y
  | VNum x, VNum y => x =? y
  | VStr x, VStr y => String.eqb x y
  | _, _ => false
  end.

(* ===================================================================== *)
(** ** Dates *)
(* ===================================================================== *)

Definition msPerDay : Z := 1000 * 60 * 60 * 24.

(** A calendar-date string: [Some d] for day number [d], [None] for
    [NaN-NaN-NaN]. *)
Definition DayKey : Type := option Z.

Class Runtime : Type := {
  (** local civil time = UTC + [tzOffsetMinutes] (New York in winter: -300) *)
  tzOffsetMinutes : Z;
  (** the time value of [new Date(v)]; [None] is NaN, an invalid date *)
  Date_new : value → option Z;
  (** [new Date(t).toISOString()] *)
  toISOString : Z → string;
  (** [JSON.parse]; [None] is a [SyntaxError] *)
  JSON_parse : string → option value;
}.

Module Store.
Section WithRuntime.
Context `{RT : Runtime}.

(** The local calendar day of a time value: what [getFullYear()],
    [getMonth()] and [getDate()] read together. *)
Definition localDay (t : Z) : Z := (t + tzOffsetMinutes * 60000) `div` msPerDay.

(** The template [`${d.getFullYear()}-${...getMonth() + 1...}-${...getDate()...}`]. *)
Definition formatLocalDate (t : Z) : DayKey := Some (localDay t).

(** [new Date("YYYY-MM-DD")]: a date-only string is read as UTC midnight;
    [NaN-NaN-NaN] gives an invalid date. *)
Definition Date_of_day (d : Z) : Z := d * msPerDay.
Definition Date_of_dayString (k : DayKey) : option Z := Date_of_day <$> k.

(** [d.setDate(d.getDate() - 1)] on a valid date: one local day back, the
    local time of day kept. *)
Definition setDate_prev (t : Z) : Z := t - msPerDay.

(** [Math.round(num / den)] for [den > 0]: [floor (num/den + 1/2)]. *)
Definition Math_round_div (num den : Z) : Z := (2 * num + den) `div` (2 * den).

(* ===================================================================== *)
(** ** The data model *)
(* ===================================================================== *)

(** A session as it sits in [data.sessions] at run time.  [duration] and
    [completed] are a number and a boolean on every path that stores a
    session; the other fields are typed [string], [string | null],
    [boolean] and [number] by the interface, but [importData] copies them
    from the bundle unchecked, so they are values. *)
Record Session : Type := mkSession {
  id : value;
  startTime : value;
  duration : Z;
  completed : bool;
  completedAt : value;
  failedAttentionCheck : value;
  attentionChecksResponded : value;
}.

Inductive Theme : Type := light | dark.

Record AppData : Type := mkAppData {
  theme : Theme;
  sessions : list Session;
  currentStreak : Z;
  longestStreak : Z;
}.

Record Streaks : Type := mkStreaks {
  streaks_current : Z;
  streaks_longest : Z;
}.

Definition getDefaultData : AppData :=
  {| theme := light; sessions := []; currentStreak := 0; longestStreak := 0 |}.

(** [localStorage]: the item under [STORAGE_KEY], as [saveData] writes it,
    and the item under [boredom-last-duration]. *)
Record Storage : Type := mkStorage {
  stored_data : option AppData;
  stored_last_duration : option string;
}.

Definition loadData (st : Storage) : AppData :=
  match stored_data st with
  | None => getDefaultData
  | Some parsed => parsed
  end.

Definition saveData (data : AppData) (st : Storage) : Storage :=
  {| stored_data := Some data; stored_last_duration := stored_last_duration st |}.

(* ===================================================================== *)
(** ** Streaks *)
(* ===================================================================== *)

Definition toLocalDateString (isoString : value) : DayKey :=
  match Date_new isoString with
  | Some t => formatLocalDate t
  | None => None
  end.

Definition getCompletedDays (sessions : list Session) : gset DayKey :=
  foldl (λ days s,
           if completed s && truthy (completedAt s)
           then days ∪ {[ toLocalDateString (completedAt s) ]}
           else days)
        ∅ sessions.

(** The order of [Array.prototype.sort()] on the date strings. *)
Definition key_le (a b : DayKey) : Prop :=
  match a, b with
  | Some x, Some y => x ≤ y
  | _, None => True
  | None, Some _ => False
  end.

#[export] Instance key_le_dec a b : Decision (key_le a b).
Proof. destruct a, b; simpl; apply _. Defined.

Definition sortDays (days : gset DayKey) : list DayKey :=
  merge_sort key_le (elements days).

(** [Math.round((curr.getTime() - prev.getTime()) / msPerDay)]; [None] is NaN. *)
Definition diffDays (prev curr : DayKey) : option Z :=
  match Date_of_dayString prev, Date_of_dayString curr with
  | Some p, Some c => Some (Math_round_div (c - p) msPerDay)
  | _, _ => None
  end.

(** The [for] loop over [sortedDays], from index 1. *)
Fixpoint longest_loop (prev : DayKey) (rest : list DayKey) (streak longest : Z) : Z :=
  match rest with
  | [] => longest
  | curr :: rest' =>
      let streak' := if decide (diffDays prev curr = Some 1) then streak + 1 else 1 in
      longest_loop curr rest' streak' (Z.max longest streak')
  end.

Definition longest_of (sortedDays : list DayKey) : Z :=
  match sortedDays with
  | [] => 1
  | first :: rest => longest_loop first rest 1 1
  end.

(** The [while (true)] loop; [None] when the fuel runs out before the
    [break]. *)
Fixpoint walk_back (fuel : nat) (days : gset DayKey) (checkDate currentStreak : Z)
  : option Z :=
  match fuel with
  | O => None
  | S fuel' =>
      if decide (formatLocalDate checkDate ∈ days)
      then walk_back fuel' days (setDate_prev checkDate) (currentStreak + 1)
      else Some currentStreak
  end.

(** One more turn than there are completed days always reaches the
    [break] ([walk_back_returns] below). *)
Definition count_back (days : gset DayKey) (checkDate : Z) : option Z :=
  walk_back (S (size days)) days checkDate 0.

Definition recalculateStreaks (now : Z) (sessions : list Session) : Streaks :=
  let completedDays := getCompletedDays sessions in
  if decide (size completedDays = 0%nat) then
    {| streaks_current := 0; streaks_longest := 0 |}
  else
    let sortedDays := sortDays completedDays in
    let longestStreak := longest_of sortedDays in
    let todayStr := formatLocalDate now in
    let checkDate := Date_of_day (localDay now) in
    let count checkDate :=
      {| streaks_current := default 0 (count_back completedDays checkDate);
         streaks_longest := longestStreak |} in
    if decide (todayStr ∈ completedDays) then count checkDate
    else
      let checkDate := setDate_prev checkDate in
      let yesterdayStr := formatLocalDate checkDate in
      if decide (yesterdayStr ∈ completedDays) then count checkDate
      else {| streaks_current := 0; streaks_longest := longestStreak |}.


Definition saveSession (now : Z) (session : Session) (st : Storage) : AppData * Storage :=
  let data := loadData st in
  let pushed := sessions data ++ [session] in
  let streaks := recalculateStreaks now pushed in
  let data := {| theme := theme data; sessions := pushed;
                 currentStreak := streaks_current streaks;
                 longestStreak := streaks_longest streaks |} in
  (data, saveData data st).

(* ===================================================================== *)
(** ** Export *)
(* ===================================================================== *)

Record Stats : Type := mkStats {
  totalSessions : Z;
  completedSessions : Z;
  failedSessions : Z;
  stats_currentStreak : Z;
  stats_longestStreak : Z;
  totalMinutes : Z;
  (** [None]: the sum of the responded checks left the numbers, see
      [add_number] *)
  attentionCheckSuccessRate : option Q;
}.

Record ExportObj : Type := mkExportObj {
  version : string;
  exportedAt : string;
  export_sessions : list Session;
  stats : Stats;
}.

(** [sum + v] as long as it is an addition of numbers ([true] counts 1,
    [false] and [null] count 0).  With a string, an array or an object
    JavaScript concatenates strings instead; the sum is then [None] and is
    not followed further. *)
Definition add_number (sum : option Z) (v : value) : option Z :=
  match sum, v with
  | Some a, VNum n => Some (a + n)
  | Some a, VBool b => Some (a + if b then 1 else 0)
  | Some a, VNull => Some a
  | _, _ => None
  end.

Definition successRate (totalChecks failedChecks : Z) : Q :=
  if 0 <? totalChecks
  then (inject_Z (totalChecks - failedChecks) / inject_Z totalChecks)%Q
  else 1%Q.

(** The object that [exportData] serialises. *)
Definition exportData (now : Z) (st : Storage) : ExportObj :=
  let data := loadData st in
  let completedSessions := List.filter (λ s, completed s) (sessions data) in
  let failedSessions := List.filter (λ s, negb (completed s)) (sessions data) in
  let totalMinutes := foldl (λ sum s, sum + duration s) 0 completedSessions in
  let totalChecks :=
    foldl (λ sum s, add_number sum (attentionChecksResponded s)) (Some 0) (sessions data) in
  let failedChecks :=
    Z.of_nat (length (List.filter (λ s, truthy (failedAttentionCheck s)) (sessions data))) in
  {| version := "1.0";
     exportedAt := toISOString now;
     export_sessions := sessions data;
     stats := {|
       totalSessions := Z.of_nat (length (sessions data));
       completedSessions := Z.of_nat (length completedSessions);
       failedSessions := Z.of_nat (length failedSessions);
       stats_currentStreak := currentStreak data;
       stats_longestStreak := longestStreak data;
       totalMinutes := totalMinutes;
       attentionCheckSuccessRate :=
         (λ totalChecks, successRate totalChecks failedChecks) <$> totalChecks |} |}.

(* ===================================================================== *)
(** ** Import *)
(* ===================================================================== *)

Record ImportResult : Type := mkImportResult {
  success : bool;
  message : string;
}.

Definition invalid_format : ImportResult :=
  {| success := false;
     message := "Invalid file format. Please select a valid export file." |}.

Definition missing_data : ImportResult :=
  {| success := false;
     message := "File is missing required data. Please use a valid export file." |}.

(** The condition of the validation loop,
    [!s.id || !s.startTime || typeof s.duration !== 'number' ||
     typeof s.completed !== 'boolean'], read left to right. *)
Definition lacks_required (s : value) : completion bool :=
  i ← get_prop s "id";
  if negb (truthy_opt i) then mret true else
  t ← get_prop s "startTime";
  if negb (truthy_opt t) then mret true else
  d ← get_prop s "duration";
  if negb (is_number d) then mret true else
  c ← get_prop s "completed";
  mret (negb (is_boolean c)).

(** The validation loop: [true] when it returns the error result. *)
Fixpoint any_lacks_required (entries : list value) : completion bool :=
  match entries with
  | [] => mret false
  | s :: rest =>
      bad ← lacks_required s;
      if (bad : bool) then mret true else any_lacks_required rest
  end.

(** The object literal pushed for a new entry.  After the validation loop
    [s.id] and [s.startTime] are defined, [s.duration] is a number and
    [s.completed] a boolean; the fall-backs for the other shapes are never
    taken ([normalize_valid] below). *)
Definition normalize (s : value) : completion Session :=
  i ← get_prop s "id";
  t ← get_prop s "startTime";
  d ← get_prop s "duration";
  c ← get_prop s "completed";
  ca ← get_prop s "completedAt";
  f ← get_prop s "failedAttentionCheck";
  a ← get_prop s "attentionChecksResponded";
  mret {| id := default VNull i;
          startTime := default VNull t;
          duration := match d with Some (VNum n) => n | _ => 0 end;
          completed := match c with Some (VBool b) => b | _ => false end;
          completedAt := or_default ca VNull;
          failedAttentionCheck := or_default f (VBool false);
          attentionChecksResponded := or_default a (VNum 0) |}.

(** [existingIds.has(x)]; [undefined] (no [id] property) is never a member,
    every stored id being a value. *)
Definition Set_has (existingIds : list value) (x : option value) : bool :=
  match x with
  | Some v => existsb (λ e, sameValueZero e v) existingIds
  | None => false
  end.

Record ImportLoop : Type := mkImportLoop {
  loop_sessions : list Session;
  imported : Z;
  skipped : Z;
}.

(** The second loop: [existingIds] is built once, before the loop, and not
    extended by the entries the loop appends. *)
Fixpoint import_loop (existingIds : list value) (entries : list value) (acc : ImportLoop)
  : completion ImportLoop :=
  match entries with
  | [] => mret acc
  | s :: rest =>
      i ← get_prop s "id";
      if Set_has existingIds i then
        import_loop existingIds rest
          {| loop_sessions := loop_sessions acc; imported := imported acc;
             skipped := skipped acc + 1 |}
      else
        n ← normalize s;
        import_loop existingIds rest
          {| loop_sessions := loop_sessions acc ++ [n]; imported := imported acc + 1;
             skipped := skipped acc |}
  end.

Definition plural (n : Z) : string := if decide (n = 1) then "" else "s".

Definition import_message (imported skipped : Z) : string :=
  "Imported " +:+ pretty imported +:+ " session" +:+ plural imported +:+
  ", skipped " +:+ pretty skipped +:+ " duplicate" +:+ plural skipped.

(** [importData]: the result (or the exception that escapes) and the
    storage it leaves.  An array is truthy, so the test
    [!parsed.sessions || !Array.isArray(parsed.sessions)] lets exactly the
    arrays through. *)
Definition importData (now : Z) (jsonString : string) (st : Storage)
  : completion ImportResult * Storage :=
  match JSON_parse jsonString with
  | None => (Normal invalid_format, st)
  | Some parsed =>
      match get_prop parsed "sessions" with
      | Throw_TypeError => (Throw_TypeError, st)
      | Normal (Some (VArr entries)) =>
          match any_lacks_required entries with
          | Throw_TypeError => (Throw_TypeError, st)
          | Normal true => (Normal missing_data, st)
          | Normal false =>
              let data := loadData st in
              let existingIds := map id (sessions data) in
              match import_loop existingIds entries
                      {| loop_sessions := sessions data; imported := 0; skipped := 0 |} with
              | Throw_TypeError => (Throw_TypeError, st)
              | Normal r =>
                  let streaks := recalculateStreaks now (loop_sessions r) in
                  let data := {| theme := theme data; sessions := loop_sessions r;
                                 currentStreak := streaks_current streaks;
                                 longestStreak := streaks_longest streaks |} in
                  (Normal {| success := true;
                             message := import_message (imported r) (skipped r) |},
                   saveData data st)
              end
          end
      | Normal _ => (Normal missing_data, st)
      end
  end.

(** [parseInt(raw, 10)]: leading (ASCII) white space, an optional sign, then
    the longest run of decimal digits; [None] is NaN. *)
Definition is_space (a : ascii) : bool :=
  let n := nat_of_ascii a in
  (n =? 32)%nat || ((9 <=? n)%nat && (n <=? 13)%nat).

Definition digit_of (a : ascii) : option Z :=
  let n := Z.of_nat (nat_of_ascii a) in
  if (48 <=? n) && (n <=? 57) then Some (n - 48) else None.

Fixpoint skip_spaces (s : string) : string :=
  match s with
  | String a rest => if is_space a then skip_spaces rest else s
  | EmptyString => s
  end.

Fixpoint digits_prefix (s : string) (acc : option Z) : option Z :=
  match s with
  | String a rest =>
      match digit_of a with
      | Some d => digits_prefix rest (Some (10 * default 0 acc + d))
      | None => acc
      end
  | EmptyString => acc
  end.

Definition parseInt (raw : string) : option Z :=
  match skip_spaces raw with
  | String "-" rest => Z.opp <$> digits_prefix rest None
  | String "+" rest => digits_prefix rest None
  | s => digits_prefix s None
  end.

Definition getLastDuration (st : Storage) : Z :=
  match stored_last_duration st with
  | Some raw =>
      if negb (String.eqb raw "") then
        match parseInt raw with
        | Some n => if (1 <=? n) && (n <=? 60) then n else 15
        | None => 15
        end
      else 15
  | None => 15
  end.

Definition setLastDuration (minutes : Z) (st : Storage) : Storage :=
  {| stored_data := stored_data st; stored_last_duration := Some (pretty minutes) |}.

End WithRuntime.
End Store.

(* ===================================================================== *)
(** ** The session controller *)
(* ===================================================================== *)

Module Timer.
Import Store.

Inductive AppState : Type := Idle | Running | AttentionCheck | Completed | Failed.

#[export] Instance AppState_eq_dec : EqDecision AppState.
Proof. solve_decision. Defined.

(** What a live timer of the browser runs when it fires: the interval of
    [startSession], the progress-bar interval of [triggerAttentionCheck]
    (it closes over the [startTime] read there), and its timeout. *)
Inductive callback : Type :=
| OnTick
| OnAttentionBar (startTime : Z)
| OnAttentionTimeout.

(** The variables of the component, then the browser: the table of live
    timers with the next handle [setInterval] and [setTimeout] give out
    (handles start at 1), and [localStorage].  The theme, the download of
    the export and the toast of the import touch none of these and are
    left out. *)
Record World : Type := mkWorld {
  state : AppState;
  durationMinutes : Z;
  remainingSeconds : Z;
  attentionProgress : Q;
  attentionChecksResponded : Z;
  sessionStartTime : string;
  timerInterval : option nat;
  attentionTimeout : option nat;
  attentionBarInterval : option nat;
  nextAttentionCheck : Z;
  completedDays : gset DayKey;
  currentStreak : Z;
  attentionVisible : bool;
  touchStartY : Z;
  touchAccumulated : Z;
  timers : list (nat * callback);
  nextHandle : nat;
  storage : Storage;
}.

(** Assignment to one variable. *)
Definition set_state (v : AppState) (w : World) : World :=
  {| state := v; durationMinutes := durationMinutes w; remainingSeconds := remainingSeconds w;
     attentionProgress := attentionProgress w;
     attentionChecksResponded := attentionChecksResponded w;
     sessionStartTime := sessionStartTime w; timerInterval := timerInterval w;
     attentionTimeout := attentionTimeout w; attentionBarInterval := attentionBarInterval w;
     nextAttentionCheck := nextAttentionCheck w; completedDays := completedDays w;
     currentStreak := currentStreak w; attentionVisible := attentionVisible w;
     touchStartY := touchStartY w; touchAccumulated := touchAccumulated w; timers := timers w;
     nextHandle := nextHandle w; storage := storage w |}.
Definition set_durationMinutes (v : Z) (w : World) : World :=
  {| state := state w; durationMinutes := v; remainingSeconds := remainingSeconds w;
     attentionProgress := attentionProgress w;
     attentionChecksResponded := attentionChecksResponded w;
     sessionStartTime := sessionStartTime w; timerInterval := timerInterval w;
     attentionTimeout := attentionTimeout w; attentionBarInterval := attentionBarInterval w;
     nextAttentionCheck := nextAttentionCheck w; completedDays := completedDays w;
     currentStreak := currentStreak w; attentionVisible := attentionVisible w;
     touchStartY := touchStartY w; touchAccumulated := touchAccumulated w; timers := timers w;
     nextHandle := nextHandle w; storage := storage w |}.
Definition set_remainingSeconds (v : Z) (w : World) : World :=
  {| state := state w; durationMinutes := durationMinutes w; remainingSeconds := v;
     attentionProgress := attentionProgress w;
     attentionChecksResponded := attentionChecksResponded w;
     sessionStartTime := sessionStartTime w; timerInterval := timerInterval w;
     attentionTimeout := attentionTimeout w; attentionBarInterval := attentionBarInterval w;
     nextAttentionCheck := nextAttentionCheck w; completedDays := completedDays w;
     currentStreak := currentStreak w; attentionVisible := attentionVisible w;
     touchStartY := touchStartY w; touchAccumulated := touchAccumulated w; timers := timers w;
     nextHandle := nextHandle w; storage := storage w |}.
Definition set_attentionProgress (v : Q) (w : World) : World :=
  {| state := state w; durationMinutes := durationMinutes w;
     remainingSeconds := remainingSeconds w; attentionProgress := v;
     attentionChecksResponded := attentionChecksResponded w;
     sessionStartTime := sessionStartTime w; timerInterval := timerInterval w;
     attentionTimeout := attentionTimeout w; attentionBarInterval := attentionBarInterval w;
     nextAttentionCheck := nextAttentionCheck w; completedDays := completedDays w;
     currentStreak := currentStreak w; attentionVisible := attentionVisible w;
     touchStartY := touchStartY w; touchAccumulated := touchAccumulated w; timers := timers w;
     nextHandle := nextHandle w; storage := storage w |}.
Definition set_attentionChecksResponded (v : Z) (w : World) : World :=
  {| state := state w; durationMinutes := durationMinutes w;
     remainingSeconds := remainingSeconds w; attentionProgress := attentionProgress w;
     attentionChecksResponded := v; sessionStartTime := sessionStartTime w;
     timerInterval := timerInterval w; attentionTimeout := attentionTimeout w;
     attentionBarInterval := attentionBarInterval w;
     nextAttentionCheck := nextAttentionCheck w; completedDays := completedDays w;
     currentStreak := currentStreak w; attentionVisible := attentionVisible w;
     touchStartY := touchStartY w; touchAccumulated := touchAccumulated w; timers := timers w;
     nextHandle := nextHandle w; storage := storage w |}.
Definition set_sessionStartTime (v : string) (w : World) : World :=
  {| state := state w; durationMinutes := durationMinutes w;
     remainingSeconds := remainingSeconds w; attentionProgress := attentionProgress w;
     attentionChecksResponded := attentionChecksResponded w; sessionStartTime := v;
     timerInterval := timerInterval w; attentionTimeout := attentionTimeout w;
     attentionBarInterval := attentionBarInterval w;
     nextAttentionCheck := nextAttentionCheck w; completedDays := completedDays w;
     currentStreak := currentStreak w; attentionVisible := attentionVisible w;
     touchStartY := touchStartY w; touchAccumulated := touchAccumulated w; timers := timers w;
     nextHandle := nextHandle w; storage := storage w |}.
Definition set_timerInterval (v : option nat) (w : World) : World :=
  {| state := state w; durationMinutes := durationMinutes w;
     remainingSeconds := remainingSeconds w; attentionProgress := attentionProgress w;
     attentionChecksResponded := attentionChecksResponded w;
     sessionStartTime := sessionStartTime w; timerInterval := v;
     attentionTimeout := attentionTimeout w; attentionBarInterval := attentionBarInterval w;
     nextAttentionCheck := nextAttentionCheck w; completedDays := completedDays w;
     currentStreak := currentStreak w; attentionVisible := attentionVisible w;
     touchStartY := touchStartY w; touchAccumulated := touchAccumulated w; timers := timers w;
     nextHandle := nextHandle w; storage := storage w |}.
Definition set_attentionTimeout (v : option nat) (w : World) : World :=
  {| state := state w; durationMinutes := durationMinutes w;
     remainingSeconds := remainingSeconds w; attentionProgress := attentionProgress w;
     attentionChecksResponded := attentionChecksResponded w;
     sessionStartTime := sessionStartTime w; timerInterval := timerInterval w;
     attentionTimeout := v; attentionBarInterval := attentionBarInterval w;
     nextAttentionCheck := nextAttentionCheck w; completedDays := completedDays w;
     currentStreak := currentStreak w; attentionVisible := attentionVisible w;
     touchStartY := touchStartY w; touchAccumulated := touchAccumulated w; timers := timers w;
     nextHandle := nextHandle w; storage := storage w |}.
Definition set_attentionBarInterval (v : option nat) (w : World) : World :=
  {| state := state w; durationMinutes := durationMinutes w;
     remainingSeconds := remainingSeconds w; attentionProgress := attentionProgress w;
     attentionChecksResponded := attentionChecksResponded w;
     sessionStartTime := sessionStartTime w; timerInterval := timerInterval w;
     attentionTimeout := attentionTimeout w; attentionBarInterval := v;
     nextAttentionCheck := nextAttentionCheck w; completedDays := completedDays w;
     currentStreak := currentStreak w; attentionVisible := attentionVisible w;
     touchStartY := touchStartY w; touchAccumulated := touchAccumulated w; timers := timers w;
     nextHandle := nextHandle w; storage := storage w |}.
Definition set_nextAttentionCheck (v : Z) (w : World) : World :=
  {| state := state w; durationMinutes := durationMinutes w;
     remainingSeconds := remainingSeconds w; attentionProgress := attentionProgress w;
     attentionChecksResponded := attentionChecksResponded w;
     sessionStartTime := sessionStartTime w; timerInterval := timerInterval w;
     attentionTimeout := attentionTimeout w; attentionBarInterval := attentionBarInterval w;
     nextAttentionCheck := v; completedDays := completedDays w;
     currentStreak := currentStreak w; attentionVisible := attentionVisible w;
     touchStartY := touchStartY w; touchAccumulated := touchAccumulated w; timers := timers w;
     nextHandle := nextHandle w; storage := storage w |}.
Definition set_completedDays (v : gset DayKey) (w : World) : World :=
  {| state := state w; durationMinutes := durationMinutes w;
     remainingSeconds := remainingSeconds w; attentionProgress := attentionProgress w;
     attentionChecksResponded := attentionChecksResponded w;
     sessionStartTime := sessionStartTime w; timerInterval := timerInterval w;
     attentionTimeout := attentionTimeout w; attentionBarInterval := attentionBarInterval w;
     nextAttentionCheck := nextAttentionCheck w; completedDays := v;
     currentStreak := currentStreak w; attentionVisible := attentionVisible w;
     touchStartY := touchStartY w; touchAccumulated := touchAccumulated w; timers := timers w;
     nextHandle := nextHandle w; storage := storage w |}.
Definition set_currentStreak (v : Z) (w : World) : World :=
  {| state := state w; durationMinutes := durationMinutes w;
     remainingSeconds := remainingSeconds w; attentionProgress := attentionProgress w;
     attentionChecksResponded := attentionChecksResponded w;
     sessionStartTime := sessionStartTime w; timerInterval := timerInterval w;
     attentionTimeout := attentionTimeout w; attentionBarInterval := attentionBarInterval w;
     nextAttentionCheck := nextAttentionCheck w; completedDays := completedDays w;
     currentStreak := v; attentionVisible := attentionVisible w; touchStartY := touchStartY w;
     touchAccumulated := touchAccumulated w; timers := timers w; nextHandle := nextHandle w;
     storage := storage w |}.
Definition set_attentionVisible (v : bool) (w : World) : World :=
  {| state := state w; durationMinutes := durationMinutes w;
     remainingSeconds := remainingSeconds w; attentionProgress := attentionProgress w;
     attentionChecksResponded := attentionChecksResponded w;
     sessionStartTime := sessionStartTime w; timerInterval := timerInterval w;
     attentionTimeout := attentionTimeout w; attentionBarInterval := attentionBarInterval w;
     nextAttentionCheck := nextAttentionCheck w; completedDays := completedDays w;
     currentStreak := currentStreak w; attentionVisible := v; touchStartY := touchStartY w;
     touchAccumulated := touchAccumulated w; timers := timers w; nextHandle := nextHandle w;
     storage := storage w |}.
Definition set_touchStartY (v : Z) (w : World) : World :=
  {| state := state w; durationMinutes := durationMinutes w;
     remainingSeconds := remainingSeconds w; attentionProgress := attentionProgress w;
     attentionChecksResponded := attentionChecksResponded w;
     sessionStartTime := sessionStartTime w; timerInterval := timerInterval w;
     attentionTimeout := attentionTimeout w; attentionBarInterval := attentionBarInterval w;
     nextAttentionCheck := nextAttentionCheck w; completedDays := completedDays w;
     currentStreak := currentStreak w; attentionVisible := attentionVisible w;
     touchStartY := v; touchAccumulated := touchAccumulated w; timers := timers w;
     nextHandle := nextHandle w; storage := storage w |}.
Definition set_touchAccumulated (v : Z) (w : World) : World :=
  {| state := state w; durationMinutes := durationMinutes w;
     remainingSeconds := remainingSeconds w; attentionProgress := attentionProgress w;
     attentionChecksResponded := attentionChecksResponded w;
     sessionStartTime := sessionStartTime w; timerInterval := timerInterval w;
     attentionTimeout := attentionTimeout w; attentionBarInterval := attentionBarInterval w;
     nextAttentionCheck := nextAttentionCheck w; completedDays := completedDays w;
     currentStreak := currentStreak w; attentionVisible := attentionVisible w;
     touchStartY := touchStartY w; touchAccumulated := v; timers := timers w;
     nextHandle := nextHandle w; storage := storage w |}.
Definition set_timers (v : list (nat * callback)) (w : World) : World :=
  {| state := state w; durationMinutes := durationMinutes w;
     remainingSeconds := remainingSeconds w; attentionProgress := attentionProgress w;
     attentionChecksResponded := attentionChecksResponded w;
     sessionStartTime := sessionStartTime w; timerInterval := timerInterval w;
     attentionTimeout := attentionTimeout w; attentionBarInterval := attentionBarInterval w;
     nextAttentionCheck := nextAttentionCheck w; completedDays := completedDays w;
     currentStreak := currentStreak w; attentionVisible := attentionVisible w;
     touchStartY := touchStartY w; touchAccumulated := touchAccumulated w; timers := v;
     nextHandle := nextHandle w; storage := storage w |}.
Definition set_nextHandle (v : nat) (w : World) : World :=
  {| state := state w; durationMinutes := durationMinutes w;
     remainingSeconds := remainingSeconds w; attentionProgress := attentionProgress w;
     attentionChecksResponded := attentionChecksResponded w;
     sessionStartTime := sessionStartTime w; timerInterval := timerInterval w;
     attentionTimeout := attentionTimeout w; attentionBarInterval := attentionBarInterval w;
     nextAttentionCheck := nextAttentionCheck w; completedDays := completedDays w;
     currentStreak := currentStreak w; attentionVisible := attentionVisible w;
     touchStartY := touchStartY w; touchAccumulated := touchAccumulated w; timers := timers w;
     nextHandle := v; storage := storage w |}.
Definition set_storage (v : Storage) (w : World) : World :=
  {| state := state w; durationMinutes := durationMinutes w;
     remainingSeconds := remainingSeconds w; attentionProgress := attentionProgress w;
     attentionChecksResponded := attentionChecksResponded w;
     sessionStartTime := sessionStartTime w; timerInterval := timerInterval w;
     attentionTimeout := attentionTimeout w; attentionBarInterval := attentionBarInterval w;
     nextAttentionCheck := nextAttentionCheck w; completedDays := completedDays w;
     currentStreak := currentStreak w; attentionVisible := attentionVisible w;
     touchStartY := touchStartY w; touchAccumulated := touchAccumulated w; timers := timers w;
     nextHandle := nextHandle w; storage := v |}.

Section WithRuntime.
Context `{RT : Runtime}.

Definition setTimer (cb : callback) (w : World) : nat * World :=
  let h := nextHandle w in
  (h, set_nextHandle (S h) (set_timers (timers w ++ [(h, cb)]) w)).

(** [clearInterval] and [clearTimeout]: no effect on a handle that is not
    live. *)
Definition clearTimer (h : nat) (w : World) : World :=
  set_timers (List.filter (λ t, negb (Nat.eqb (fst t) h)) (timers w)) w.

Definition initial (st : Storage) : World :=
  {| state := Idle; durationMinutes := 15; remainingSeconds := 0;
     attentionProgress := 100; attentionChecksResponded := 0; sessionStartTime := "";
     timerInterval := None; attentionTimeout := None; attentionBarInterval := None;
     nextAttentionCheck := 0; completedDays := ∅; currentStreak := 0;
     attentionVisible := false; touchStartY := 0; touchAccumulated := 0;
     timers := []; nextHandle := 1; storage := st |}.

Definition init (now : Z) (w : World) : World :=
  let data := loadData (storage w) in
  let w := set_completedDays (getCompletedDays (sessions data)) w in
  let streaks := recalculateStreaks now (sessions data) in
  let w := set_currentStreak (streaks_current streaks) w in
  let w := set_durationMinutes (getLastDuration (storage w)) w in
  set_remainingSeconds (durationMinutes w * 60) w.

Definition handleWheel (deltaY : Z) (w : World) : World :=
  if decide (state w ≠ Idle) then w else
  let w :=
    if deltaY <? 0
    then set_durationMinutes (Z.min 60 (durationMinutes w + 1)) w
    else set_durationMinutes (Z.max 1 (durationMinutes w - 1)) w in
  let w := set_remainingSeconds (durationMinutes w * 60) w in
  set_storage (setLastDuration (durationMinutes w) (storage w)) w.

Definition handleTouchStart (clientY : Z) (w : World) : World :=
  if decide (state w ≠ Idle) then w else
  set_touchAccumulated 0 (set_touchStartY clientY w).

(** [Math.trunc(touchAccumulated / 30)] is [Z.quot]. *)
Definition handleTouchMove (clientY : Z) (w : World) : World :=
  if decide (state w ≠ Idle) then w else
  let deltaY := touchStartY w - clientY in
  let w := set_touchAccumulated (touchAccumulated w + deltaY) w in
  let w := set_touchStartY clientY w in
  let steps := touchAccumulated w `quot` 30 in
  if decide (steps ≠ 0) then
    let w := set_touchAccumulated (touchAccumulated w - steps * 30) w in
    let w := set_durationMinutes (Z.min 60 (Z.max 1 (durationMinutes w + steps))) w in
    let w := set_remainingSeconds (durationMinutes w * 60) w in
    set_storage (setLastDuration (durationMinutes w) (storage w)) w
  else w.

(** [30 + Math.floor(Math.random() * 91)], [random] being the draw. *)
Definition scheduleNextAttentionCheck (random : Q) (w : World) : World :=
  set_nextAttentionCheck (30 + Qfloor (random * 91)) w.

Definition clearAttentionCheck (w : World) : World :=
  let w :=
    match attentionTimeout w with
    | Some h => set_attentionTimeout None (clearTimer h w)
    | None => w
    end in
  match attentionBarInterval w with
  | Some h => set_attentionBarInterval None (clearTimer h w)
  | None => w
  end.

Definition cleanup (w : World) : World :=
  let w :=
    match timerInterval w with
    | Some h => set_timerInterval None (clearTimer h w)
    | None => w
    end in
  clearAttentionCheck w.

Definition triggerAttentionCheck (now : Z) (w : World) : World :=
  let w := set_state AttentionCheck w in
  let w := set_attentionProgress 100 w in
  let w := set_attentionVisible true w in
  let startTime := now in
  let '(h, w) := setTimer (OnAttentionBar startTime) w in
  let w := set_attentionBarInterval (Some h) w in
  let '(h, w) := setTimer OnAttentionTimeout w in
  set_attentionTimeout (Some h) w.

(** The callback of the progress-bar interval. *)
Definition onAttentionBar (startTime now : Z) (w : World) : World :=
  let elapsed := now - startTime in
  set_attentionProgress (Qmax 0 (100 - (inject_Z elapsed / 10000) * 100)) w.

Definition completeTimer (w : World) : World :=
  set_state Completed (cleanup w).

(** The callback of the one-second interval. *)
Definition onTick (now : Z) (w : World) : World :=
  let w := set_remainingSeconds (remainingSeconds w - 1) w in
  let w := set_nextAttentionCheck (nextAttentionCheck w - 1) w in
  let w :=
    if (nextAttentionCheck w <=? 0) && bool_decide (state w = Running)
    then triggerAttentionCheck now w
    else w in
  if remainingSeconds w <=? 0 then completeTimer (set_remainingSeconds 0 w) else w.

Definition startSession (now : Z) (random : Q) (w : World) : World :=
  let w := set_state Running w in
  let w := set_sessionStartTime (toISOString now) w in
  let w := set_attentionChecksResponded 0 w in
  let w := set_remainingSeconds (durationMinutes w * 60) w in
  let w := scheduleNextAttentionCheck random w in
  let '(h, w) := setTimer OnTick w in
  set_timerInterval (Some h) w.

Definition respondToAttentionCheck (random : Q) (w : World) : World :=
  if decide (state w ≠ AttentionCheck) then w else
  let w := set_attentionChecksResponded (attentionChecksResponded w + 1) w in
  let w := clearAttentionCheck w in
  let w := set_state Running w in
  let w := set_attentionVisible false w in
  scheduleNextAttentionCheck random w.

Definition failed_session (uuid : string) (w : World) : Session :=
  {| id := VStr uuid;
     startTime := VStr (sessionStartTime w);
     duration := durationMinutes w;
     completed := false;
     completedAt := VNull;
     failedAttentionCheck := VBool true;
     Store.attentionChecksResponded := VNum (attentionChecksResponded w) |}.

Definition failSession (now : Z) (uuid : string) (w : World) : World :=
  let w := clearAttentionCheck w in
  let w := cleanup w in
  let session := failed_session uuid w in
  let '(data, st) := saveSession now session (storage w) in
  let w := set_storage st w in
  let w := set_completedDays (getCompletedDays (sessions data)) w in
  let w := set_currentStreak (Store.currentStreak data) w in
  let w := set_state Failed w in
  let w := set_attentionVisible false w in
  set_remainingSeconds (durationMinutes w * 60) w.

Definition confirmed_session (stayedBored : bool) (now : Z) (uuid : string) (w : World)
  : Session :=
  {| id := VStr uuid;
     startTime := VStr (sessionStartTime w);
     duration := durationMinutes w;
     completed := stayedBored;
     completedAt := if stayedBored then VStr (toISOString now) else VNull;
     failedAttentionCheck := VBool false;
     Store.attentionChecksResponded := VNum (attentionChecksResponded w) |}.

Definition confirmCompletion (stayedBored : bool) (now : Z) (uuid : string) (w : World)
  : World :=
  let session := confirmed_session stayedBored now uuid w in
  let '(data, st) := saveSession now session (storage w) in
  let w := set_storage st w in
  let w := set_completedDays (getCompletedDays (sessions data)) w in
  let w := set_currentStreak (Store.currentStreak data) w in
  let w := set_state Idle w in
  set_remainingSeconds (durationMinutes w * 60) w.

Definition dismissFailed (w : World) : World :=
  let w := set_state Idle w in
  set_remainingSeconds (durationMinutes w * 60) w.

Definition handleAction (now : Z) (random : Q) (w : World) : World :=
  match state w with
  | Idle => startSession now random w
  | Running => w
  | AttentionCheck => respondToAttentionCheck random w
  | Completed | Failed => w
  end.

(** The [onload] callback of [handleFileChange]; an exception of
    [importData] escapes it before anything is assigned. *)
Definition handleImport (now : Z) (raw : string) (w : World) : World :=
  match importData now raw (storage w) with
  | (Normal result, st) =>
      let w := set_storage st w in
      if success result then
        let data := loadData (storage w) in
        let w := set_completedDays (getCompletedDays (sessions data)) w in
        set_currentStreak (Store.currentStreak data) w
      else w
  | (Throw_TypeError, st) => set_storage st w
  end.

(** What can happen to the mounted component.  The two confirmation
    buttons exist only while the state is [completed] and the dismiss
    button only while it is [failed]; a timer fires only while it is live,
    and a timeout leaves the table as it fires.  [now], [random] and [uuid]
    are what [new Date()], [Math.random()] and [crypto.randomUUID()] give
    during the event. *)
Inductive event : Type :=
| Wheel (deltaY : Z)
| TouchStart (clientY : Z)
| TouchMove (clientY : Z)
| Action (now : Z) (random : Q)
| ConfirmButton (stayedBored : bool) (now : Z) (uuid : string)
| DismissButton
| TimerFires (handle : nat) (now : Z) (uuid : string)
| ImportFile (now : Z) (raw : string).

Definition live_callback (h : nat) (w : World) : option callback :=
  snd <$> List.find (λ t, Nat.eqb (fst t) h) (timers w).

Definition handle (e : event) (w : World) : World :=
  match e with
  | Wheel deltaY => handleWheel deltaY w
  | TouchStart y => handleTouchStart y w
  | TouchMove y => handleTouchMove y w
  | Action now random => handleAction now random w
  | ConfirmButton stayedBored now uuid =>
      if decide (state w = Completed) then confirmCompletion stayedBored now uuid w else w
  | DismissButton =>
      if decide (state w = Failed) then dismissFailed w else w
  | TimerFires h now uuid =>
      match live_callback h w with
      | Some OnTick => onTick now w
      | Some (OnAttentionBar startTime) => onAttentionBar startTime now w
      | Some OnAttentionTimeout => failSession now uuid (clearTimer h w)
      | None => w
      end
  | ImportFile now raw => handleImport now raw w
  end.

Definition run (events : list event) (w : World) : World :=
  foldl (λ w e, handle e w) w events.

(** The states the component can be in: mounted over any storage, then
    any events. *)
Inductive reachable : World → Prop :=
| reachable_init st now : reachable (init now (initial st))
| reachable_step e w : reachable w → reachable (handle e w).

End WithRuntime.
End Timer.

(* ===================================================================== *)
(** ** A concrete runtime, for the worked examples *)
(* ===================================================================== *)

Module Sample.

(** Day number of a civil date, and back (proleptic Gregorian calendar). *)
Definition days_from_civil (y m d : Z) : Z :=
  let y := if m <=? 2 then y - 1 else y in
  let era := y `div` 400 in
  let yoe := y - era * 400 in
  let doy := (153 * (if 2 <? m then m - 3 else m + 9) + 2) `div` 5 + d - 1 in
  let doe := yoe * 365 + yoe `div` 4 - yoe `div` 100 + doy in
  era * 146097 + doe - 719468.

Definition civil_from_days (z : Z) : Z * Z * Z :=
  let z := z + 719468 in
  let era := z `div` 146097 in
  let doe := z - era * 146097 in
  let yoe := (doe - doe `div` 1460 + doe `div` 36524 - doe `div` 146096) `div` 365 in
  let doy := doe - (365 * yoe + yoe `div` 4 - yoe `div` 100) in
  let mp := (5 * doy + 2) `div` 153 in
  let d := doy - (153 * mp + 2) `div` 5 + 1 in
  let m := if mp <? 10 then mp + 3 else mp - 9 in
  let y := yoe + era * 400 in
  (if m <=? 2 then y + 1 else y, m, d).

Fixpoint zeros (k : nat) : string :=
  match k with O => "" | S k' => "0" +:+ zeros k' end.

Definition pad (width : nat) (n : Z) : string :=
  let s := pretty n in zeros (width - String.length s) +:+ s.

(** [YYYY-MM-DDTHH:mm:ss.sssZ], for the years 0..9999. *)
Definition to_iso_string (t : Z) : string :=
  let '(y, m, d) := civil_from_days (t `div` msPerDay) in
  let ms := t `mod` msPerDay in
  pad 4 y +:+ "-" +:+ pad 2 m +:+ "-" +:+ pad 2 d +:+ "T" +:+
  pad 2 (ms `div` 3600000) +:+ ":" +:+ pad 2 ((ms `div` 60000) `mod` 60) +:+ ":" +:+
  pad 2 ((ms `div` 1000) `mod` 60) +:+ "." +:+ pad 3 (ms `mod` 1000) +:+ "Z".

Fixpoint all_digits (s : string) (acc : Z) : option Z :=
  match s with
  | EmptyString => Some acc
  | String a rest =>
      match Store.digit_of a with
      | Some d => all_digits rest (10 * acc + d)
      | None => None
      end
  end.

Definition digits_at (s : string) (start len : nat) : option Z :=
  all_digits (String.substring start len s) 0.

Definition char_at (s : string) (i : nat) (c : ascii) : bool :=
  match String.get i s with
  | Some a => Ascii.eqb a c
  | None => false
  end.

(** The time value of a string in the format of [toISOString]; every other
    string is an invalid date here. *)
Definition parse_iso (s : string) : option Z :=
  if (String.length s =? 24)%nat && char_at s 4 "-" && char_at s 7 "-" && char_at s 10 "T"
     && char_at s 13 ":" && char_at s 16 ":" && char_at s 19 "." && char_at s 23 "Z"
  then
    y ← digits_at s 0 4; m ← digits_at s 5 2; d ← digits_at s 8 2;
    h ← digits_at s 11 2; mi ← digits_at s 14 2; sec ← digits_at s 17 2;
    ms ← digits_at s 20 3;
    let day := days_from_civil y m d in
    if bool_decide (civil_from_days day = (y, m, d)) && (h <? 24) && (mi <? 60) && (sec <? 60)
    then Some (day * msPerDay + h * 3600000 + mi * 60000 + sec * 1000 + ms)
    else None
  else None.

(** [new Date(v)]: a number is the time value itself. *)
Definition date_new (v : value) : option Z :=
  match v with
  | VNum n => Some n
  | VStr s => parse_iso s
  | _ => None
  end.

Definition quote (s : string) : string :=
  String (ascii_of_nat 34) s +:+ String (ascii_of_nat 34) "".

(** The compact JSON text of a value whose strings need no escaping. *)
Fixpoint stringify (v : value) : string :=
  match v with
  | VNull => "null"
  | VBool b => if b then "true" else "false"
  | VNum n => pretty n
  | VStr s => quote s
  | VArr items =>
      "[" +:+
      (fix go (l : list value) : string :=
         match l with
         | [] => ""
         | [x] => stringify x
         | x :: rest => stringify x +:+ "," +:+ go rest
         end) items +:+ "]"
  | VObj fields =>
      "{" +:+
      (fix go (l : list (string * value)) : string :=
         match l with
         | [] => ""
         | [(k, x)] => quote k +:+ ":" +:+ stringify x
         | (k, x) :: rest => quote k +:+ ":" +:+ stringify x +:+ "," +:+ go rest
         end) fields +:+ "}"
  end.

(** [JSON.parse] on the texts of a given list of documents; any other text
    is a syntax error here. *)
Definition json_parse (documents : list value) (text : string) : option value :=
  List.find (λ v, String.eqb (stringify v) text) documents.

Definition runtime_at (tz : Z) (documents : list value) : Runtime :=
  {| tzOffsetMinutes := tz;
     Date_new := date_new;
     toISOString := to_iso_string;
     JSON_parse := json_parse documents |}.

End Sample.

(* ===================================================================== *)
(** ** The vocabulary of the specification *)
(* ===================================================================== *)

Module Spec.
Import Store.

(** The last [n] calendar days up to and including day [last] are all
    completed days, and the day before them is not: walking backward from
    [last], the first gap comes after [n] days. *)
Definition counts_back (days : gset DayKey) (last n : Z) : Prop :=
  0 ≤ n ∧ (∀ k, 0 ≤ k < n → Some (last - k) ∈ days) ∧ Some (last - n) ∉ days.

(** A run of [n] calendar-consecutive completed days starting at [first];
    the key of an invalid date is a run of one by itself. *)
Definition is_run (days : gset DayKey) (first : DayKey) (n : Z) : Prop :=
  match first with
  | Some d => 1 ≤ n ∧ ∀ k, 0 ≤ k < n → Some (d + k) ∈ days
  | None => n = 1 ∧ None ∈ days
  end.

(** The last day of a run. *)
Definition run_last (first : DayKey) (n : Z) : DayKey := (λ d, d + n - 1) <$> first.

(** [n] is the length of the longest run. *)
Definition longest_run (days : gset DayKey) (n : Z) : Prop :=
  (∃ first, is_run days first n) ∧ ∀ first m, is_run days first m → m ≤ n.

(** Strictly before, in the order of the sorted days. *)
Definition key_lt (a b : DayKey) : Prop := key_le a b ∧ a ≠ b.

(** The invariant on [prev] and [streak]: the [streak] days up to [prev]
    are completed days and the day before them is not. *)
Definition ends_run (days : gset DayKey) (prev : DayKey) (streak : Z) : Prop :=
  match prev with
  | Some p => counts_back days p streak
  | None => True
  end.

(** The session has the types the interface declares where the export
    reads it: the count of responded checks is a non-negative number and
    the failure flag a boolean. *)
Definition well_typed (s : Session) : Prop :=
  (∃ n, attentionChecksResponded s = VNum n ∧ 0 ≤ n) ∧
  (∃ b, failedAttentionCheck s = VBool b).




(** The entry of a bundle passes the validation: it is an object with a
    truthy [id] and [startTime], a numeric [duration] and a boolean
    [completed]. *)
Definition has_required (s : value) : bool :=
  match s with
  | VObj fields =>
      truthy_opt (assoc "id" fields) && truthy_opt (assoc "startTime" fields) &&
      is_number (assoc "duration" fields) && is_boolean (assoc "completed" fields)
  | _ => false
  end.

Definition entry_field (name : string) (s : value) : option value :=
  match s with VObj fields => assoc name fields | _ => None end.


(** The entries the second loop appends: those whose [id] is not among
    the stored ones. *)
Definition is_new (existingIds : list value) (s : value) : bool :=
  negb (Store.Set_has existingIds (entry_field "id" s)).

(** The text is a structurally valid bundle with the given entries. *)
Definition valid_bundle `{RT : Runtime} (raw : string) (entries : list value) : Prop :=
  ∃ parsed, JSON_parse raw = Some parsed ∧
            get_prop parsed "sessions" = Normal (Some (VArr entries)) ∧
            forallb has_required entries = true.

(** Neither the parsed text nor an entry of its [sessions] array is
    [null]. *)
Definition null_free `{RT : Runtime} (raw : string) : Prop :=
  ∀ parsed, JSON_parse raw = Some parsed →
    parsed ≠ VNull ∧
    ∀ entries, get_prop parsed "sessions" = Normal (Some (VArr entries)) → VNull ∉ entries.


(** The record invariant of the data model. *)
Definition record_invariant (s : Session) : Prop :=
  ¬ (completed s = true ∧ failedAttentionCheck s = VBool true) ∧
  (completedAt s ≠ VNull ↔ completed s = true).

(** The live timers in each state of the controller, and the range of
    the configured duration. *)
Definition timers_of (w : Timer.World) : Prop :=
  match Timer.state w with
  | Timer.Idle | Timer.Completed | Timer.Failed =>
      Timer.timers w = [] ∧ Timer.timerInterval w = None ∧
      Timer.attentionBarInterval w = None ∧ Timer.attentionTimeout w = None
  | Timer.Running =>
      ∃ h, Timer.timers w = [(h, Timer.OnTick)] ∧ Timer.timerInterval w = Some h ∧
           Timer.attentionBarInterval w = None ∧ Timer.attentionTimeout w = None ∧
           (h < Timer.nextHandle w)%nat
  | Timer.AttentionCheck =>
      ∃ h hb ht start,
        Timer.timers w =
          [(h, Timer.OnTick); (hb, Timer.OnAttentionBar start); (ht, Timer.OnAttentionTimeout)] ∧
        Timer.timerInterval w = Some h ∧
        Timer.attentionBarInterval w = Some hb ∧ Timer.attentionTimeout w = Some ht ∧
        (h < hb < ht)%nat ∧ (ht < Timer.nextHandle w)%nat
  end.

Definition invariant (w : Timer.World) : Prop :=
  1 ≤ Timer.durationMinutes w ≤ 60 ∧ timers_of w.

(** The attention checks answered in the current session along a run of
    events: a start puts the count back to 0, an action during an open
    check adds one. *)
Fixpoint answered `{RT : Runtime} (events : list Timer.event) (w : Timer.World) (count : Z)
  : Z :=
  match events with
  | [] => count
  | e :: rest =>
      answered rest (Timer.handle e w)
        match e, Timer.state w with
        | Timer.Action _ _, Timer.Idle => 0
        | Timer.Action _ _, Timer.AttentionCheck => count + 1
        | _, _ => count
        end
  end.

Definition is_import (e : Timer.event) : bool :=
  match e with Timer.ImportFile _ _ => true | _ => false end.

End Spec.

(* ===================================================================== *)
(** ** Data of the worked examples *)
(* ===================================================================== *)

Module Examples.
Import Store.

(** A session completed at the given instant. *)
Definition done_at (uuid iso : string) : Session :=
  {| id := VStr uuid; startTime := VStr iso; duration := 15; completed := true;
     completedAt := VStr iso; failedAttentionCheck := VBool false;
     attentionChecksResponded := VNum 0 |}.

Definition utc : Runtime := Sample.runtime_at 0 [].
Definition new_york : Runtime := Sample.runtime_at (-300) [].

Definition first_week : list Session :=
  [ done_at "s1" "2024-01-01T12:00:00.000Z"; done_at "s2" "2024-01-02T12:00:00.000Z";
    done_at "s3" "2024-01-03T12:00:00.000Z"; done_at "s4" "2024-01-04T12:00:00.000Z";
    done_at "s5" "2024-01-05T12:00:00.000Z" ].

(** 2024-01-05T18:00Z, 2024-01-06T18:00Z and 2024-01-07T18:00Z. *)
Definition jan5 : Z := 1704477600000.
Definition jan6 : Z := jan5 + msPerDay.
Definition jan7 : Z := jan6 + msPerDay.

(** In New York, at 13:00 local time on 2024-01-06, with one session
    completed at 10:00 local time the day before. *)
Definition yesterday_only : list Session := [ done_at "s1" "2024-01-05T15:00:00.000Z" ].

(** A session that failed its first attention check, and one completed
    after one answered check. *)
Definition failed_first_check (uuid : string) : Session :=
  {| id := VStr uuid; startTime := VStr "2024-01-05T12:00:00.000Z"; duration := 1;
     completed := false; completedAt := VNull; failedAttentionCheck := VBool true;
     attentionChecksResponded := VNum 0 |}.



Definition storage_of (ss : list Session) : Storage :=
  {| stored_data := Some {| theme := light; sessions := ss; currentStreak := 0;
                            longestStreak := 0 |};
     stored_last_duration := None |}.

(** Bundles: a session marked completed without a [completedAt]; a session
    whose [id] is an object; an entry that is [null]; an object without a
    [sessions] key. *)
Definition entry (i : value) (rest : list (string * value)) : value :=
  VObj ([("id", i); ("startTime", VStr "2024-01-05T12:00:00.000Z");
         ("duration", VNum 15)] ++ rest).

Definition bundle (entries : list value) : value := VObj [("sessions", VArr entries)].

Definition completed_without_date : value :=
  bundle [ entry (VStr "a") [("completed", VBool true)] ].

Definition object_id : value :=
  bundle [ entry (VObj []) [("completed", VBool false)] ].

Definition two_sessions : value :=
  bundle [ entry (VStr "a") [("completed", VBool true);
                             ("completedAt", VStr "2024-01-05T12:15:00.000Z")];
           entry (VStr "b") [("completed", VBool false);
                             ("failedAttentionCheck", VBool true)] ].

Definition null_entry : value := bundle [ VNull ].

Definition no_sessions : value := VObj [("version", VStr "1.0")].

Definition documents : list value :=
  [ VNull; completed_without_date; object_id; two_sessions; null_entry; no_sessions ].

(** UTC, with [JSON.parse] defined on the texts of [documents]. *)
Definition browser : Runtime := Sample.runtime_at 0 documents.

Definition empty_storage : Storage :=
  {| stored_data := None; stored_last_duration := None |}.

(** The component mounted over an empty storage, a session started with
    the first attention check drawn 30 seconds ahead, and the state after
    those 30 seconds: the check is open and handle 3 is its timeout. *)
Definition mounted : Timer.World :=
  Timer.init (RT := browser) jan5 (Timer.initial empty_storage).

Definition ticks (h : nat) (start : Z) (n : nat) : list Timer.event :=
  (λ k, Timer.TimerFires h (start + 1000 * Z.of_nat (S k)) "") <$> seq 0 n.

Definition first_check : list Timer.event :=
  Timer.Action jan5 0 :: ticks 1 jan5 30.

Definition at_check : Timer.World := Timer.run (RT := browser) first_check mounted.

(** Two sessions lost at their first attention check, then a one-minute
    session with one answered check, confirmed as completed. *)
Definition three_sessions : list Timer.event :=
  first_check ++
  [ Timer.TimerFires 3 (jan5 + 40000) "f1"; Timer.DismissButton ] ++
  Timer.Action (jan5 + 60000) 0 :: ticks 4 (jan5 + 60000) 30 ++
  [ Timer.TimerFires 6 (jan5 + 100000) "f2"; Timer.DismissButton ] ++
  repeat (Timer.Wheel 1) 14 ++
  Timer.Action (jan5 + 120000) 0 :: ticks 7 (jan5 + 120000) 30 ++
  Timer.Action (jan5 + 155000) 0 :: ticks 7 (jan5 + 155000) 30 ++
  [ Timer.ConfirmButton true (jan5 + 190000) "c1" ].

End Examples.

(* ===================================================================== *)
(** ** What the controller keeps, and the state machine *)
(* ===================================================================== *)

Module ControllerSpec.
Import Store Spec.

(** The countdown in each state. *)
Definition countdown_ok (w : Timer.World) : Prop :=
  match Timer.state w with
  | Timer.Idle | Timer.Failed => Timer.remainingSeconds w = Timer.durationMinutes w * 60
  | Timer.Completed => Timer.remainingSeconds w = 0
  | Timer.Running | Timer.AttentionCheck =>
      1 ≤ Timer.remainingSeconds w ≤ Timer.durationMinutes w * 60
  end.

(** What the controller keeps besides the timers: the countdown, a
    non-negative responded count, and a completed-day set that is the one
    of the stored sessions. *)
Definition in_step `{RT : Runtime} (w : Timer.World) : Prop :=
  countdown_ok w ∧
  0 ≤ Timer.attentionChecksResponded w ∧
  Timer.completedDays w = getCompletedDays (sessions (loadData (Timer.storage w))).

(** A record as the controller writes it: typed as the interface declares,
    with a duration the controller allows, and within the record
    invariant. *)
Definition controller_record (s : Session) : Prop :=
  well_typed s ∧ 1 ≤ duration s ≤ 60 ∧ record_invariant s.

(** The arrows of the state machine, with the event that takes each. *)
Definition edge (e : Timer.event) (s s' : Timer.AppState) : bool :=
  match s, e, s' with
  | Timer.Idle, Timer.Action _ _, Timer.Running => true
  | Timer.Running, Timer.TimerFires _ _ _, (Timer.AttentionCheck | Timer.Completed) => true
  | Timer.AttentionCheck, Timer.Action _ _, Timer.Running => true
  | Timer.AttentionCheck, Timer.TimerFires _ _ _, (Timer.Failed | Timer.Completed) => true
  | Timer.Completed, Timer.ConfirmButton _ _ _, Timer.Idle => true
  | Timer.Failed, Timer.DismissButton, Timer.Idle => true
  | _, _, _ => false
  end.

End ControllerSpec.

(* ===================================================================== *)
(** ** Sessions as JSON values *)
(* ===================================================================== *)

Module Json.
Import Store.

(** What [JSON.stringify] writes for a stored session, read back by
    [JSON.parse]: the object with the seven fields. *)
Definition Session_json (s : Session) : value :=
  VObj [("id", id s); ("startTime", startTime s); ("duration", VNum (duration s));
        ("completed", VBool (completed s)); ("completedAt", completedAt s);
        ("failedAttentionCheck", failedAttentionCheck s);
        ("attentionChecksResponded", attentionChecksResponded s)].

(** The text is an export of the storage: it parses to an object whose
    [sessions] are the stored sessions, as [exportData] puts them there. *)
Definition is_export_of `{RT : Runtime} (raw : string) (e : ExportObj) : Prop :=
  ∃ parsed, JSON_parse raw = Some parsed ∧
            get_prop parsed "version" = Normal (Some (VStr (version e))) ∧
            get_prop parsed "sessions" =
              Normal (Some (VArr (Session_json <$> export_sessions e))).

(** The fields that [importData] defaults hold their default or a truthy
    value, and [id] and [startTime] are truthy: the shape of every record
    that [importData] or the controller stores. *)
Definition normal_form (s : Session) : bool :=
  truthy (id s) && truthy (startTime s) &&
  (match completedAt s with VNull => true | v => truthy v end) &&
  (match failedAttentionCheck s with VBool false => true | v => truthy v end) &&
  (match attentionChecksResponded s with VNum 0 => true | v => truthy v end).

End Json.

(* ===================================================================== *)
(** ** What the component derives for display *)
(* ===================================================================== *)

Module View.
Import Store Timer.

(** [s.padStart(2, '0')]. *)
Definition padStart2 (s : string) : string :=
  match String.length s with
  | O => "00"
  | S O => "0" +:+ s
  | _ => s
  end.

(** The derived [displayTime]: [Math.floor] is the floor division, [%] the
    remainder with the sign of the dividend. *)
Definition display (remainingSeconds : Z) : string :=
  let mins := remainingSeconds `div` 60 in
  let secs := remainingSeconds `rem` 60 in
  padStart2 (pretty mins) +:+ ":" +:+ padStart2 (pretty secs).

Definition displayTime (w : World) : string := display (remainingSeconds w).

(** The two numbers of a text [MM:SS], as seconds. *)
Definition read_display (s : string) : option Z :=
  mins ← parseInt (String.substring 0 2 s);
  secs ← parseInt (String.substring 3 2 s);
  Some (mins * 60 + secs).

Section WithRuntime.
Context `{RT : Runtime}.

(** [d.setDate(d.getDate() - i)] on a copy of [today]. *)
Definition setDate_back (i : nat) (t : Z) : Z := t - Z.of_nat i * msPerDay.

(** [getStreakDays]: the loop runs [i] from 13 down to 0. *)
Definition getStreakDays (now : Z) (w : World) : list (DayKey * bool) :=
  (λ i, let dateStr := formatLocalDate (setDate_back i now) in
        (dateStr, bool_decide (dateStr ∈ completedDays w))) <$> reverse (seq 0 14).

End WithRuntime.
End View.

(* ===================================================================== *)
(** ** The theme *)
(* ===================================================================== *)

Module ThemeStore.
Import Store.

(** The item under [boredom-theme], the answer of the media query
    [prefers-color-scheme: dark], and whether the document element carries
    the class [dark]. *)
Record ThemeEnv : Type := mkThemeEnv {
  stored_theme : option string;
  prefers_dark : bool;
  dark_class : bool;
}.

Definition theme_name (t : Theme) : string :=
  match t with light => "light" | dark => "dark" end.

Definition getTheme (env : ThemeEnv) : Theme :=
  match stored_theme env with
  | Some stored =>
      if String.eqb stored "dark" then dark
      else if String.eqb stored "light" then light
      else if prefers_dark env then dark else light
  | None => if prefers_dark env then dark else light
  end.

Definition setTheme (t : Theme) (env : ThemeEnv) : ThemeEnv :=
  {| stored_theme := Some (theme_name t);
     prefers_dark := prefers_dark env;
     dark_class := match t with dark => true | light => false end |}.

(** [toggleTheme] on the component's variable [dark]. *)
Definition toggleTheme (dark_var : bool) (env : ThemeEnv) : bool * ThemeEnv :=
  let dark_var := negb dark_var in
  (dark_var, setTheme (if dark_var then dark else light) env).

End ThemeStore.

(* ===================================================================== *)
(** ** Further data of the worked examples *)
(* ===================================================================== *)

Module MoreExamples.
Import Store Examples.

(** The sessions of [first_week] in the opposite order, after a session
    lost at its first attention check. *)
Definition week_shuffled : list Session :=
  failed_first_check "f" :: reverse first_week.

(** In New York, at 13:00 local time on 2024-01-06, with one session
    completed at noon that day. *)
Definition today_only : list Session := [ done_at "s1" "2024-01-06T17:00:00.000Z" ].

(** Bundles: an entry without [completed]; the same [id] twice; what
    [exportData] writes over [storage_of first_week]. *)
Definition missing_completed : value := bundle [ entry (VStr "a") [] ].

Definition repeated_id : value :=
  bundle [ entry (VStr "a") [("completed", VBool false)];
           entry (VStr "a") [("completed", VBool false)] ].

Definition week_export : value :=
  VObj [("version", VStr "1.0"); ("exportedAt", VStr "2024-01-06T18:00:00.000Z");
        ("sessions", VArr (Json.Session_json <$> first_week));
        ("stats", VObj [("totalSessions", VNum 5); ("completedSessions", VNum 5);
                        ("failedSessions", VNum 0); ("currentStreak", VNum 0);
                        ("longestStreak", VNum 0); ("totalMinutes", VNum 75);
                        ("attentionCheckSuccessRate", VNum 1)])].

(** UTC, with [JSON.parse] defined on the texts of these three. *)
Definition desk : Runtime :=
  Sample.runtime_at 0 [ missing_completed; repeated_id; week_export ].

(** Storages with a last duration that is not a number, is out of range,
    and is in range. *)
Definition last_duration (raw : string) : Storage :=
  {| stored_data := None; stored_last_duration := Some raw |}.

(** A one-minute session whose first attention check is drawn 120 seconds
    ahead, so that none opens: the state one second before the end, and at
    the end. *)
Definition one_minute (seconds : nat) : list Timer.event :=
  repeat (Timer.Wheel 1) 14 ++ Timer.Action jan5 (99 # 100) :: ticks 1 jan5 seconds.

Definition last_second : Timer.World := Timer.run (RT := browser) (one_minute 59) mounted.

Definition finished : Timer.World := Timer.run (RT := browser) (one_minute 60) mounted.

(** The state after the sessions of [three_sessions]. *)
Definition after_three : Timer.World := Timer.run (RT := browser) three_sessions mounted.

(** A stored theme that is neither of the two names, on a system that
    prefers dark. *)
Definition unknown_theme : ThemeStore.ThemeEnv :=
  {| ThemeStore.stored_theme := Some "blue"; ThemeStore.prefers_dark := true;
     ThemeStore.dark_class := false |}.

End MoreExamples.

(* ===================================================================== *)
(** * Streaks *)
(* ===================================================================== *)

Module StreakFacts.
Import Store Spec.

Section WithRuntime.
Context `{RT : Runtime}.

Lemma msPerDay_eq : msPerDay = 86400000.
Proof. reflexivity. Qed.

Lemma Math_round_div_exact k : Math_round_div (k * msPerDay) msPerDay = k.
Proof.
  unfold Math_round_div. rewrite msPerDay_eq.
  symmetry. apply Z.div_unique with (r := 86400000); lia.
Qed.

Lemma diffDays_Some a b : diffDays (Some a) (Some b) = Some (b - a).
Proof.
  unfold diffDays, Date_of_dayString, Date_of_day. simpl. f_equal.
  replace (b * msPerDay - a * msPerDay) with ((b - a) * msPerDay) by lia.
  apply Math_round_div_exact.
Qed.

Lemma diffDays_one prev curr :
  diffDays prev curr = Some 1 ↔ ∃ p, prev = Some p ∧ curr = Some (p + 1).
Proof.
  destruct prev as [p|], curr as [c|]; try rewrite diffDays_Some; unfold diffDays; simpl.
  - split.
    + intros [= H]. exists p. split; [done | f_equal; lia].
    + intros (q & [= ->] & [= ->]). f_equal. lia.
  - split; [done | by intros (q & _ & ?)].
  - split; [done | by intros (q & ? & _)].
  - split; [done | by intros (q & ? & _)].
Qed.

Lemma localDay_setDate_prev t : localDay (setDate_prev t) = localDay t - 1.
Proof.
  unfold localDay, setDate_prev.
  replace (t - msPerDay + tzOffsetMinutes * 60000)
    with (t + tzOffsetMinutes * 60000 + (-1) * msPerDay) by lia.
  rewrite Z.div_add by (rewrite msPerDay_eq; lia). lia.
Qed.

(** A date-only string read back in local time: the same day east of
    Greenwich, the day before west of it. *)
Lemma localDay_Date_of_day_east d :
  0 ≤ tzOffsetMinutes < 1440 → localDay (Date_of_day d) = d.
Proof.
  intros Htz. unfold localDay, Date_of_day. rewrite msPerDay_eq.
  symmetry. apply Z.div_unique with (r := tzOffsetMinutes * 60000); lia.
Qed.

Lemma localDay_Date_of_day_west d :
  -1440 ≤ tzOffsetMinutes < 0 → localDay (Date_of_day d) = d - 1.
Proof.
  intros Htz. unfold localDay, Date_of_day. rewrite msPerDay_eq.
  symmetry. apply Z.div_unique with (r := 86400000 + tzOffsetMinutes * 60000); lia.
Qed.

(** *** The completed-day set *)

Lemma getCompletedDays_snoc ss s :
  getCompletedDays (ss ++ [s]) =
  if completed s && truthy (completedAt s)
  then getCompletedDays ss ∪ {[ toLocalDateString (completedAt s) ]}
  else getCompletedDays ss.
Proof. unfold getCompletedDays. by rewrite foldl_app. Qed.

Lemma elem_of_getCompletedDays k ss :
  k ∈ getCompletedDays ss ↔
  ∃ s, s ∈ ss ∧ completed s = true ∧ truthy (completedAt s) = true ∧
       toLocalDateString (completedAt s) = k.
Proof.
  induction ss as [|s ss IH] using rev_ind.
  - split; [set_solver | intros (s & Hs & _); by apply elem_of_nil in Hs].
  - rewrite getCompletedDays_snoc.
    destruct (completed s && truthy (completedAt s)) eqn:Hc.
    + apply andb_true_iff in Hc as [Hc1 Hc2].
      rewrite elem_of_union, elem_of_singleton, IH. split.
      * intros [(s' & Hs' & H)| ->].
        -- exists s'. split; [apply elem_of_app; by left | done].
        -- exists s. split; [apply elem_of_app; right; by apply list_elem_of_singleton | done].
      * intros (s' & Hs' & H1 & H2 & H3). apply elem_of_app in Hs' as [Hs'|Hs'].
        -- left. by exists s'.
        -- apply list_elem_of_singleton in Hs' as ->. by right.
    + rewrite IH. split.
      * intros (s' & Hs' & H). exists s'. split; [apply elem_of_app; by left | done].
      * intros (s' & Hs' & H1 & H2 & H3). apply elem_of_app in Hs' as [Hs'|Hs'].
        -- by exists s'.
        -- apply list_elem_of_singleton in Hs' as ->. rewrite H1, H2 in Hc. done.
Qed.

(** *** The sorted days *)

#[local] Instance key_le_total : Total key_le.
Proof. intros [a|] [b|]; simpl; try tauto. lia. Qed.

#[local] Instance key_le_trans : Transitive key_le.
Proof. intros [a|] [b|] [c|]; simpl; try tauto. lia. Qed.

Lemma key_le_refl a : key_le a a.
Proof. destruct a; simpl; [lia | done]. Qed.

Lemma key_le_antisym a b : key_le a b → key_le b a → a = b.
Proof. destruct a, b; simpl; try tauto. intros. f_equal. lia. Qed.

Lemma key_lt_irrefl_le a b : key_lt a b → key_le b a → False.
Proof. intros [H1 H2] H3. apply H2. by apply key_le_antisym. Qed.

Lemma elem_of_sortDays days k : k ∈ sortDays days ↔ k ∈ days.
Proof. unfold sortDays. by rewrite merge_sort_Permutation, elem_of_elements. Qed.

Lemma StronglySorted_strict (l : list DayKey) :
  StronglySorted key_le l → NoDup l → StronglySorted key_lt l.
Proof.
  induction 1 as [|a l Hs IH Hall]; intros Hnd; [constructor|].
  apply NoDup_cons in Hnd as [Ha Hnd]. constructor; [by apply IH|].
  apply Forall_forall. intros x Hx. split.
  - by eapply Forall_forall in Hall.
  - intros ->. done.
Qed.

Lemma sortDays_sorted days : StronglySorted key_lt (sortDays days).
Proof.
  apply StronglySorted_strict.
  - apply StronglySorted_merge_sort; apply _.
  - unfold sortDays. rewrite merge_sort_Permutation. apply NoDup_elements.
Qed.

Lemma sortDays_nonempty days : days ≠ ∅ → sortDays days ≠ [].
Proof.
  intros Hne Hnil. apply Hne. apply set_eq. intros x.
  rewrite <- elem_of_sortDays, Hnil. set_solver.
Qed.

(** *** The loop of the longest streak *)

Lemma run_last_elem days first m : is_run days first m → run_last first m ∈ days.
Proof.
  destruct first as [d|]; simpl.
  - intros [Hm H]. replace (d + m - 1) with (d + (m - 1)) by lia. apply H. lia.
  - by intros [_ H].
Qed.

Lemma ends_run_bound days c streak d m :
  counts_back days c streak → is_run days (Some d) m → d + m - 1 = c → m ≤ streak.
Proof.
  intros (Hs & _ & Hgap) [Hm Hrun] Hlast.
  destruct (decide (m ≤ streak)) as [|Hgt]; [done|]. exfalso. apply Hgap.
  replace (c - streak) with (d + (m - 1 - streak)) by lia. apply Hrun. lia.
Qed.

Lemma longest_loop_spec days rest : ∀ prev streak longest,
  StronglySorted key_lt (prev :: rest) →
  (∀ x, x ∈ prev :: rest → x ∈ days) →
  (∀ x, x ∈ days → key_le x prev ∨ x ∈ rest) →
  1 ≤ streak ≤ longest →
  ends_run days prev streak →
  (∃ first, is_run days first longest) →
  (∀ first m, is_run days first m → key_le (run_last first m) prev → m ≤ longest) →
  longest_run days (longest_loop prev rest streak longest).
Proof.
  induction rest as [|curr rest IH]; intros prev streak longest Hsort Hin Hlow Hb Hend Hex Hmax.
  - simpl. split; [done|]. intros first m Hrun. apply (Hmax first m Hrun).
    destruct (Hlow _ (run_last_elem _ _ _ Hrun)) as [H|H]; [done | by apply elem_of_nil in H].
  - apply StronglySorted_inv in Hsort as [Hsort Hprev].
    assert (Hpc : key_lt prev curr) by (by apply Forall_cons in Hprev as [? _]).
    assert (Hcurr : curr ∈ days) by (apply Hin; right; left).
    assert (Hge : ∀ x, x ∈ curr :: rest → key_le curr x).
    { intros x Hx. apply elem_of_cons in Hx as [->|Hx]; [apply key_le_refl|].
      apply StronglySorted_inv in Hsort as [_ Hall].
      eapply Forall_forall in Hall; [|done]. apply Hall. }
    assert (Hlow' : ∀ x, x ∈ days → key_le x curr ∨ x ∈ rest).
    { intros x Hx. destruct (Hlow x Hx) as [H|H].
      - left. etrans; [done | apply Hpc].
      - apply elem_of_cons in H as [->|H]; [left; apply key_le_refl | by right]. }
    simpl. destruct (decide (diffDays prev curr = Some 1)) as [Hone|Hone].
    + apply diffDays_one in Hone as (p & -> & ->).
      destruct Hend as (Hs & Hdays & Hgap).
      assert (Hend' : counts_back days (p + 1) (streak + 1)).
      { split; [lia|]. split.
        - intros k Hk. destruct (decide (k = 0)) as [->|].
          + by replace (p + 1 - 0) with (p + 1) by lia.
          + replace (p + 1 - k) with (p - (k - 1)) by lia. apply Hdays. lia.
        - by replace (p + 1 - (streak + 1)) with (p - streak) by lia. }
      apply IH; try done.
      * intros x Hx. apply Hin. by right.
      * lia.
      * destruct (Z.max_spec longest (streak + 1)) as [[_ ->]|[_ ->]]; [|done].
        exists (Some (p + 1 - streak)). split; [lia|]. intros k Hk.
        replace (p + 1 - streak + k) with (p + 1 - (streak - k)) by lia.
        destruct Hend' as (_ & H & _). apply H. lia.
      * intros [d|] m Hrun Hle; simpl in *; [|destruct Hrun; lia].
        destruct (decide (d + m - 1 = p + 1)) as [Heq|Hne].
        -- pose proof (ends_run_bound _ _ _ _ _ Hend' Hrun Heq). lia.
        -- assert (m ≤ longest); [|lia]. apply (Hmax (Some d) m Hrun). simpl. lia.
    + assert (Hend' : ends_run days curr 1).
      { destruct curr as [c|]; [|done]. split; [lia|]. split.
        - intros k Hk. by replace (c - k) with c by lia.
        - intros Hc. destruct (Hlow _ Hc) as [H|H].
          + destruct prev as [p|]; [|by destruct Hpc as [[] _]].
            simpl in H. destruct Hpc as [Hle Hneq]. simpl in Hle.
            apply Hone, diffDays_one. exists p. split; [done|]. f_equal.
            destruct (decide (c = p + 1)); [done|]. exfalso. apply Hneq. f_equal. lia.
          + apply Hge in H. simpl in H. lia. }
      apply IH; try done.
      * intros x Hx. apply Hin. by right.
      * lia.
      * destruct (Z.max_spec longest 1) as [[_ ->]|[_ ->]]; [|done].
        exists curr. destruct curr as [c|]; simpl; [|done].
        split; [lia|]. intros k Hk. by replace (c + k) with c by lia.
      * intros first m Hrun Hle. assert (m ≤ longest ∨ m ≤ 1) as [|]; [|lia..].
        destruct (Hlow _ (run_last_elem _ _ _ Hrun)) as [H|H]; [left; by eapply Hmax|].
        right. destruct first as [d|]; [|destruct Hrun; lia].
        apply elem_of_cons in H as [H|H].
        -- destruct curr as [c|]; [|done]. simpl in H. injection H as H.
           by eapply ends_run_bound.
        -- exfalso. apply StronglySorted_inv in Hsort as [_ Hall].
           eapply Forall_forall in Hall; [|done]. by eapply key_lt_irrefl_le.
Qed.

Lemma longest_of_spec days :
  days ≠ ∅ → longest_run days (longest_of (sortDays days)).
Proof.
  intros Hne. pose proof (sortDays_sorted days) as Hsort.
  pose proof (sortDays_nonempty days Hne) as Hnil.
  assert (Hel : ∀ x, x ∈ sortDays days ↔ x ∈ days) by (intros; apply elem_of_sortDays).
  destruct (sortDays days) as [|first rest]; [done|]. simpl.
  assert (Hfirst : first ∈ days) by (apply Hel; left).
  assert (Hgt : ∀ x, x ∈ rest → key_lt first x).
  { intros x Hx. apply StronglySorted_inv in Hsort as [_ Hall].
    by eapply Forall_forall in Hall. }
  assert (Hend : ends_run days first 1).
  { destruct first as [d|]; [|done]. split; [lia|]. split.
    - intros k Hk. by replace (d - k) with d by lia.
    - intros Hc. apply Hel, elem_of_cons in Hc as [[=]|Hc]; [lia|].
      apply Hgt in Hc as [Hc _]. simpl in Hc. lia. }
  apply longest_loop_spec; try done.
  - intros x Hx. by apply Hel.
  - intros x Hx. apply Hel, elem_of_cons in Hx as [->|Hx]; [left; apply key_le_refl | by right].
  - exists first. destruct first as [d|]; simpl; [|done].
    split; [lia|]. intros k Hk. by replace (d + k) with d by lia.
  - intros first' m Hrun Hle.
    pose proof (run_last_elem _ _ _ Hrun) as Hlast.
    destruct first' as [d'|]; [|destruct Hrun; lia].
    apply Hel, elem_of_cons in Hlast as [Hlast|Hlast].
    + destruct first as [d|]; [|done]. simpl in Hlast. injection Hlast as Hlast.
      by eapply ends_run_bound.
    + exfalso. by eapply key_lt_irrefl_le; [apply Hgt|].
Qed.


(** *** The loop of the current streak *)

Lemma walk_back_spec days fuel : ∀ t c r,
  walk_back fuel days t c = Some r → counts_back days (localDay t) (r - c).
Proof.
  induction fuel as [|fuel IH]; intros t c r; simpl; [done|].
  unfold formatLocalDate. case_decide as Hin.
  - intros H. apply IH in H. rewrite localDay_setDate_prev in H.
    destruct H as (Hn & Hdays & Hgap). split; [lia|]. split.
    + intros k Hk. destruct (decide (k = 0)) as [->|].
      * by replace (localDay t - 0) with (localDay t) by lia.
      * replace (localDay t - k) with (localDay t - 1 - (k - 1)) by lia. apply Hdays. lia.
    + by replace (localDay t - (r - c)) with (localDay t - 1 - (r - (c + 1))) by lia.
  - intros [= ->]. split; [lia|]. split; [intros; lia|].
    by replace (localDay t - (r - r)) with (localDay t) by lia.
Qed.

Lemma walk_back_None days fuel : ∀ t c,
  walk_back fuel days t c = None →
  ∀ k : nat, (k < fuel)%nat → Some (localDay t - Z.of_nat k) ∈ days.
Proof.
  induction fuel as [|fuel IH]; intros t c; simpl; [intros; lia|].
  unfold formatLocalDate. case_decide as Hin; [|done].
  intros H k Hk. destruct k as [|k].
  - by replace (localDay t - Z.of_nat 0) with (localDay t) by lia.
  - apply IH with (k := k) in H; [|lia]. rewrite localDay_setDate_prev in H.
    by replace (localDay t - Z.of_nat (S k)) with (localDay t - 1 - Z.of_nat k) by lia.
Qed.

(** The loop always reaches its [break]: it cannot see more completed days
    than there are. *)
Lemma walk_back_returns days t : ∃ r, count_back days t = Some r.
Proof.
  unfold count_back. destruct (walk_back _ _ _ _) as [r|] eqn:Hw; [by exists r|]. exfalso.
  pose proof (walk_back_None _ _ _ _ Hw) as Hall.
  set (f := λ k : nat, Some (localDay t - Z.of_nat k) : DayKey).
  assert (Hnd : NoDup (f <$> seq 0 (S (size days)))).
  { apply NoDup_fmap_2; [|apply NoDup_seq]. intros a b [= H]. lia. }
  assert (Hsub : f <$> seq 0 (S (size days)) ⊆+ elements days).
  { apply NoDup_submseteq; [done|]. intros x Hx.
    apply list_elem_of_fmap in Hx as (k & -> & Hk). apply elem_of_seq in Hk.
    apply elem_of_elements, Hall. lia. }
  apply submseteq_length in Hsub. rewrite length_fmap, length_seq in Hsub.
  unfold size, set_size in Hsub. simpl in Hsub. lia.
Qed.

Lemma count_back_spec days t :
  counts_back days (localDay t) (default 0 (count_back days t)).
Proof.
  destruct (walk_back_returns days t) as [r Hr]. rewrite Hr. simpl.
  apply walk_back_spec in Hr. by replace (r - 0) with r in Hr by lia.
Qed.

Lemma size_zero_empty (days : gset DayKey) : size days = 0%nat ↔ days = ∅.
Proof. rewrite size_empty_iff. by unfold_leibniz. Qed.

Lemma recalculateStreaks_empty now sessions :
  getCompletedDays sessions = ∅ →
  recalculateStreaks now sessions = {| streaks_current := 0; streaks_longest := 0 |}.
Proof.
  intros H. unfold recalculateStreaks. rewrite H.
  destruct (decide (size (∅ : gset DayKey) = 0%nat)) as [|Hne]; [done|].
  by rewrite size_empty in Hne.
Qed.

Lemma recalculateStreaks_longest_of now sessions :
  getCompletedDays sessions ≠ ∅ →
  streaks_longest (recalculateStreaks now sessions) =
  longest_of (sortDays (getCompletedDays sessions)).
Proof.
  intros H. unfold recalculateStreaks.
  destruct (decide (size _ = 0%nat)) as [He|_]; [by apply size_zero_empty in He|].
  repeat case_decide; done.
Qed.

(** What the code computes for the current streak, in terms of [base], the
    local day of the date object the walk starts from. *)
Lemma recalculateStreaks_current now sessions :
  let days := getCompletedDays sessions in
  let today := localDay now in
  let base := localDay (Date_of_day today) in
  let r := streaks_current (recalculateStreaks now sessions) in
  (Some today ∈ days → counts_back days base r) ∧
  (Some today ∉ days → Some (base - 1) ∈ days → counts_back days (base - 1) r) ∧
  (Some today ∉ days → Some (base - 1) ∉ days → r = 0).
Proof.
  intros days today base r. subst r. unfold recalculateStreaks. fold days.
  destruct (decide (size days = 0%nat)) as [He|Hne].
  { apply size_zero_empty in He. rewrite He. set_solver. }
  unfold formatLocalDate. fold today. rewrite localDay_setDate_prev. fold base.
  case_decide as Ht; simpl.
  - split; [intros _; apply count_back_spec|]. split; done.
  - case_decide as Hy; simpl.
    + split; [done|]. split; [|done]. intros _ _.
      pose proof (count_back_spec days (setDate_prev (Date_of_day today))) as H.
      by rewrite localDay_setDate_prev in H.
    + split; [done|]. split; done.
Qed.

(** East of Greenwich (and on it) the walk starts from today, or from
    yesterday when today has no completion. *)
Lemma current_streak_east now sessions :
  0 ≤ tzOffsetMinutes < 1440 →
  let days := getCompletedDays sessions in
  let today := localDay now in
  let r := streaks_current (recalculateStreaks now sessions) in
  (Some today ∈ days → counts_back days today r) ∧
  (Some today ∉ days → Some (today - 1) ∈ days → counts_back days (today - 1) r) ∧
  (Some today ∉ days → Some (today - 1) ∉ days → r = 0).
Proof.
  intros Htz. pose proof (recalculateStreaks_current now sessions) as H.
  simpl in *. by rewrite localDay_Date_of_day_east in H.
Qed.

(** West of Greenwich the date object made from today's date string
    already reads as yesterday: a completion today is not counted, and
    the grace day is the day before yesterday. *)
Lemma current_streak_west now sessions :
  -1440 ≤ tzOffsetMinutes < 0 →
  let days := getCompletedDays sessions in
  let today := localDay now in
  let r := streaks_current (recalculateStreaks now sessions) in
  (Some today ∈ days → counts_back days (today - 1) r) ∧
  (Some today ∉ days → Some (today - 2) ∈ days → counts_back days (today - 2) r) ∧
  (Some today ∉ days → Some (today - 2) ∉ days → r = 0).
Proof.
  intros Htz. pose proof (recalculateStreaks_current now sessions) as H.
  simpl in *. rewrite localDay_Date_of_day_west in H by done.
  by replace (localDay now - 1 - 1) with (localDay now - 2) in H by lia.
Qed.


End WithRuntime.
End StreakFacts.

(* ===================================================================== *)
(** * Worked examples of the streaks *)
(* ===================================================================== *)

Module StreakExamples.
Import Store Spec StreakFacts Examples.

Example jan5_is : Sample.to_iso_string jan5 = "2024-01-05T18:00:00.000Z".
Proof. reflexivity. Qed.

Example streak_five_days :
  recalculateStreaks (RT := utc) jan5 first_week =
  {| streaks_current := 5; streaks_longest := 5 |}.
Proof. vm_compute. reflexivity. Qed.

Example streak_grace_day_utc :
  recalculateStreaks (RT := utc) jan6 first_week =
  {| streaks_current := 5; streaks_longest := 5 |}.
Proof. vm_compute. reflexivity. Qed.

Example streak_broken :
  recalculateStreaks (RT := utc) jan7 first_week =
  {| streaks_current := 0; streaks_longest := 5 |}.
Proof. vm_compute. reflexivity. Qed.


(** C1. Evaluation at the failing input: yesterday is a completed day and
    today is not, yet the current streak is 0, not 1.  [new Date(todayStr)]
    is UTC midnight, which in New York is still the evening before, so the
    walk looks for 2024-01-04. *)
Theorem grace_day_lost_west_of_greenwich :
  let days := getCompletedDays (RT := new_york) yesterday_only in
  let today := localDay (RT := new_york) jan6 in
  (Some today ∉ days) ∧ (Some (today - 1) ∈ days) ∧
  streaks_current (recalculateStreaks (RT := new_york) jan6 yesterday_only) = 0.
Proof.
  split; [|split].
  - apply (bool_decide_unpack _). vm_compute. exact I.
  - apply (bool_decide_unpack _). vm_compute. exact I.
  - vm_compute. reflexivity.
Qed.

(** The same sessions and the same instant in UTC give the streak of 1. *)
Example grace_day_kept_in_utc :
  streaks_current (recalculateStreaks (RT := utc) jan6 yesterday_only) = 1.
Proof. vm_compute. reflexivity. Qed.

(** A completion today does not count either, west of Greenwich. *)
Example today_lost_west_of_greenwich :
  streaks_current
    (recalculateStreaks (RT := new_york) jan6 [ done_at "s1" "2024-01-06T15:00:00.000Z" ]) = 0.
Proof. vm_compute. reflexivity. Qed.

End StreakExamples.

(* ===================================================================== *)
(** * Export *)
(* ===================================================================== *)

Module ExportFacts.
Import Store Spec.

Section WithRuntime.
Context `{RT : Runtime}.

Lemma filter_partition_length {A} (f : A → bool) (l : list A) :
  (length (List.filter f l) + length (List.filter (λ x, negb (f x)) l) = length l)%nat.
Proof. induction l as [|x l IH]; simpl; [done|]. destruct (f x); simpl; lia. Qed.









Lemma export_counts now st :
  let s := stats (exportData now st) in
  totalSessions s = completedSessions s + failedSessions s.
Proof.
  simpl. rewrite <- Nat2Z.inj_add. f_equal. symmetry.
  apply (filter_partition_length (λ s, completed s)).
Qed.

End WithRuntime.
End ExportFacts.

Module ExportExamples.
Import Store Spec ExportFacts Examples.




End ExportExamples.

(* ===================================================================== *)
(** * Import *)
(* ===================================================================== *)

Module ImportFacts.
Import Store Spec.

Section WithRuntime.
Context `{RT : Runtime}.

Lemma lacks_required_null : lacks_required VNull = Throw_TypeError.
Proof. reflexivity. Qed.

Lemma lacks_required_spec s :
  s ≠ VNull → lacks_required s = Normal (negb (has_required s)).
Proof.
  intros Hs. destruct s as [|b|n|str|items|fields]; try done.
  unfold lacks_required, has_required. simpl.
  destruct (truthy_opt (assoc "id" fields)); simpl; [|done].
  destruct (truthy_opt (assoc "startTime" fields)); simpl; [|done].
  destruct (is_number (assoc "duration" fields)); simpl; [|done].
  done.
Qed.

Lemma has_required_not_null s : has_required s = true → s ≠ VNull.
Proof. by destruct s. Qed.

Lemma any_lacks_required_valid entries :
  forallb has_required entries = true → any_lacks_required entries = Normal false.
Proof.
  induction entries as [|s entries IH]; simpl; [done|].
  intros [Hs Hrest]%andb_true_iff.
  rewrite lacks_required_spec by by apply has_required_not_null.
  rewrite Hs. simpl. by apply IH.
Qed.

(** The validation loop on a list with an entry that lacks a field: the
    error result, unless a [null] entry comes first. *)
Lemma any_lacks_required_invalid entries :
  forallb has_required entries = false →
  any_lacks_required entries = Normal true ∨
  (any_lacks_required entries = Throw_TypeError ∧ VNull ∈ entries).
Proof.
  induction entries as [|s entries IH]; simpl; [done|]. intros H.
  assert (s = VNull ∨ s ≠ VNull) as [->|Hs] by (destruct s; auto).
  { right. split; [done | left]. }
  rewrite lacks_required_spec by done.
  destruct (has_required s); simpl in *; [|by left].
  destruct (IH H) as [->|[-> Hin]]; [by left | right; split; [done | by right]].
Qed.

Lemma normalize_valid s :
  has_required s = true →
  ∃ n, normalize s = Normal n ∧
       Some (id n) = entry_field "id" s ∧
       entry_field "completed" s = Some (VBool (completed n)) ∧
       completedAt n = or_default (entry_field "completedAt" s) VNull ∧
       failedAttentionCheck n = or_default (entry_field "failedAttentionCheck" s) (VBool false).
Proof.
  destruct s as [| | | | |fields]; try done. unfold has_required, normalize. simpl.
  intros [[[Hi _]%andb_true_iff _]%andb_true_iff Hc]%andb_true_iff.
  destruct (assoc "id" fields) as [i|]; [|done].
  destruct (assoc "completed" fields) as [[|b| | | |]|]; try done.
  eexists. split; [done|]. by simpl.
Qed.

Lemma import_loop_valid existingIds entries : ∀ acc,
  forallb has_required entries = true →
  ∃ news,
    import_loop existingIds entries acc =
      Normal {| loop_sessions := loop_sessions acc ++ news;
                imported := imported acc + Z.of_nat (length news);
                skipped := skipped acc + Z.of_nat (length entries) - Z.of_nat (length news) |} ∧
    Forall2 (λ n s, normalize s = Normal n ∧ Some (id n) = entry_field "id" s) news
            (List.filter (is_new existingIds) entries).
Proof.
  induction entries as [|s entries IH]; intros acc; simpl.
  - intros _. exists []. split; [|constructor].
    destruct acc. simpl. rewrite app_nil_r. do 2 f_equal; lia.
  - intros [Hs Hrest]%andb_true_iff.
    destruct (normalize_valid s Hs) as (n & Hn & Hid & _).
    assert (Hget : get_prop s "id" = Normal (entry_field "id" s)) by by destruct s.
    assert (Hnew : is_new existingIds s = negb (Set_has existingIds (entry_field "id" s)))
      by done.
    rewrite Hget. simpl. rewrite Hnew.
    destruct (Set_has existingIds (entry_field "id" s)); simpl.
    + destruct (IH {| loop_sessions := loop_sessions acc; imported := imported acc;
                      skipped := skipped acc + 1 |} Hrest) as (news & -> & Hnews).
      exists news. split; [|done]. simpl. do 2 f_equal; lia.
    + rewrite Hn. simpl.
      destruct (IH {| loop_sessions := loop_sessions acc ++ [n];
                      imported := imported acc + 1; skipped := skipped acc |} Hrest)
        as (news & -> & Hnews).
      exists (n :: news). split; [|by constructor]. simpl.
      rewrite <- app_assoc. simpl. do 2 f_equal; lia.
Qed.

Lemma importData_valid now raw st entries :
  valid_bundle raw entries →
  ∃ news,
    importData now raw st =
      (Normal {| success := true;
                 message := import_message (Z.of_nat (length news))
                              (Z.of_nat (length entries) - Z.of_nat (length news)) |},
       saveData
         {| theme := theme (loadData st);
            sessions := sessions (loadData st) ++ news;
            currentStreak :=
              streaks_current (recalculateStreaks now (sessions (loadData st) ++ news));
            longestStreak :=
              streaks_longest (recalculateStreaks now (sessions (loadData st) ++ news)) |}
         st) ∧
    (length news ≤ length entries)%nat ∧
    Forall2 (λ n s, normalize s = Normal n ∧ Some (id n) = entry_field "id" s) news
            (List.filter (is_new (map id (sessions (loadData st)))) entries).
Proof.
  intros (parsed & Hparse & Hsessions & Hvalid).
  destruct (import_loop_valid (map id (sessions (loadData st))) entries
              {| loop_sessions := sessions (loadData st); imported := 0; skipped := 0 |}
              Hvalid) as (news & Hloop & Hnews).
  exists news. split; [|split; [|done]].
  - unfold importData. rewrite Hparse, Hsessions, (any_lacks_required_valid _ Hvalid), Hloop.
    simpl. by do 3 f_equal.
  - apply Forall2_length in Hnews. rewrite Hnews. apply filter_length_le.
Qed.

(** Whatever the text, a call that does not report success leaves the
    storage as it was. *)
Lemma importData_storage now raw st :
  (∃ res, importData now raw st = (Normal res, snd (importData now raw st)) ∧
          success res = true) ∨
  snd (importData now raw st) = st.
Proof.
  unfold importData.
  destruct (JSON_parse raw) as [parsed|]; [|by right].
  destruct (get_prop parsed "sessions") as [[[| | | |entries|]|]|]; try by right.
  destruct (any_lacks_required entries) as [[|]|]; try by right.
  destruct (import_loop _ _ _) as [r|]; [|by right].
  left. by eexists.
Qed.

(** A text that is not a structurally valid bundle: the storage is left
    alone, and the call returns an error result or throws. *)
Lemma importData_rejects now raw st :
  (∀ entries, ¬ valid_bundle raw entries) →
  importData now raw st = (Normal invalid_format, st) ∨
  importData now raw st = (Normal missing_data, st) ∨
  importData now raw st = (Throw_TypeError, st).
Proof.
  intros Hinvalid. unfold importData.
  destruct (JSON_parse raw) as [parsed|] eqn:Hparse; [|by left].
  destruct (get_prop parsed "sessions") as [[[| | | |entries|]|]|] eqn:Hs; auto.
  destruct (forallb has_required entries) eqn:Hvalid.
  { exfalso. apply (Hinvalid entries). by exists parsed. }
  destruct (any_lacks_required_invalid _ Hvalid) as [->|[-> _]]; auto.
Qed.

(** It throws only on a [null]: everywhere else the claim of the
    specification holds. *)
Lemma importData_rejects_null_free now raw st :
  (∀ entries, ¬ valid_bundle raw entries) → null_free raw →
  ∃ res, importData now raw st = (Normal res, st) ∧ success res = false.
Proof.
  intros Hinvalid Hnull. unfold importData.
  destruct (JSON_parse raw) as [parsed|] eqn:Hparse; [|by eexists].
  destruct (Hnull parsed Hparse) as [Hparsed Hentries].
  destruct (get_prop parsed "sessions") as [[[| | | |entries|]|]|] eqn:Hs;
    try by eexists.
  - destruct (forallb has_required entries) eqn:Hvalid.
    { exfalso. apply (Hinvalid entries). by exists parsed. }
    destruct (any_lacks_required_invalid _ Hvalid) as [->|[_ Hin]]; [by eexists|].
    exfalso. by apply (Hentries entries).
  - by destruct parsed.
Qed.

Lemma importData_null now raw st :
  JSON_parse raw = Some VNull → importData now raw st = (Throw_TypeError, st).
Proof. intros H. unfold importData. by rewrite H. Qed.

Lemma loadData_saveData data st : loadData (saveData data st) = data.
Proof. reflexivity. Qed.

(** C9. For a structurally valid bundle the reported counts add up to the
    number of entries, and the stored list grows by the imported count. *)
Theorem import_counts now raw st entries :
  valid_bundle raw entries →
  ∃ imported skipped st',
    importData now raw st =
      (Normal {| success := true; message := import_message imported skipped |}, st') ∧
    0 ≤ imported ∧ 0 ≤ skipped ∧
    imported + skipped = Z.of_nat (length entries) ∧
    Z.of_nat (length (sessions (loadData st'))) =
      Z.of_nat (length (sessions (loadData st))) + imported.
Proof.
  intros Hvalid. destruct (importData_valid now raw st entries Hvalid) as (news & -> & Hle & _).
  eexists _, _, _. split; [done|]. rewrite loadData_saveData. simpl.
  rewrite length_app. lia.
Qed.





Lemma Forall2_elem_l {A B} (P : A → B → Prop) l k x :
  Forall2 P l k → x ∈ l → ∃ y, y ∈ k ∧ P x y.
Proof.
  induction 1 as [|a b l k Hab _ IH]; intros Hx; [by apply elem_of_nil in Hx|].
  apply elem_of_cons in Hx as [->|Hx].
  - exists b. split; [left | done].
  - destruct (IH Hx) as (y & Hy & HP). exists y. split; [by right | done].
Qed.








End WithRuntime.
End ImportFacts.

Module ImportExamples.
Import Store Spec ImportFacts Examples.

Example parse_bundle :
  JSON_parse (Runtime := browser) (Sample.stringify completed_without_date) =
  Some completed_without_date.
Proof. vm_compute. reflexivity. Qed.

(** C4. Evaluation at the failing input: the text [null] parses, has no
    [sessions] array, and [importData] throws at [parsed.sessions] instead
    of returning the error result.  The storage is left alone. *)
Theorem import_null_throws :
  importData (RT := browser) jan6 "null" (storage_of first_week) =
  (Throw_TypeError, storage_of first_week).
Proof. vm_compute. reflexivity. Qed.

(** The same at [s.id], for an entry that is [null]. *)
Example import_null_entry_throws :
  importData (RT := browser) jan6 (Sample.stringify null_entry) (storage_of first_week) =
  (Throw_TypeError, storage_of first_week).
Proof. vm_compute. reflexivity. Qed.

Example import_not_json :
  importData (RT := browser) jan6 "not json" (storage_of first_week) =
  (Normal invalid_format, storage_of first_week).
Proof. vm_compute. reflexivity. Qed.

Example import_no_sessions :
  importData (RT := browser) jan6 (Sample.stringify no_sessions) (storage_of first_week) =
  (Normal missing_data, storage_of first_week).
Proof. vm_compute. reflexivity. Qed.

Example import_two_sessions :
  fst (importData (RT := browser) jan6 (Sample.stringify two_sessions) empty_storage) =
  Normal {| success := true; message := "Imported 2 sessions, skipped 0 duplicates" |}.
Proof. vm_compute. reflexivity. Qed.

Lemma two_sessions_valid :
  valid_bundle (RT := browser) (Sample.stringify two_sessions)
    [ entry (VStr "a") [("completed", VBool true);
                        ("completedAt", VStr "2024-01-05T12:15:00.000Z")];
      entry (VStr "b") [("completed", VBool false);
                        ("failedAttentionCheck", VBool true)] ].
Proof. exists two_sessions. repeat split; vm_compute; reflexivity. Qed.

Lemma import_counts_witness :
  ∃ imported skipped st',
    importData (RT := browser) jan6 (Sample.stringify two_sessions) empty_storage =
      (Normal {| success := true; message := import_message imported skipped |}, st') ∧
    imported + skipped = 2.
Proof.
  destruct (import_counts (RT := browser) jan6 (Sample.stringify two_sessions) empty_storage
              _ two_sessions_valid) as (imported & skipped & st' & H & _ & _ & Hsum & _).
  exists imported, skipped, st'. split; [exact H | exact Hsum].
Defined.




End ImportExamples.

(* ===================================================================== *)
(** * The session controller *)
(* ===================================================================== *)

Module TimerFacts.
Import Store Spec Timer.

Section WithRuntime.
Context `{RT : Runtime}.

Lemma getLastDuration_range st : 1 ≤ getLastDuration st ≤ 60.
Proof.
  unfold getLastDuration. destruct (stored_last_duration st) as [raw|]; [|lia].
  destruct (negb (String.eqb raw "")); [|lia].
  destruct (parseInt raw) as [n|]; [|lia].
  destruct ((1 <=? n) && (n <=? 60)) eqn:H; [|lia].
  apply andb_true_iff in H as [H1 H2]. lia.
Qed.

Lemma getLastDuration_setLastDuration d st :
  1 ≤ d ≤ 60 → getLastDuration (setLastDuration d st) = d.
Proof.
  intros Hd. unfold getLastDuration, setLastDuration. simpl.
  assert (Hall : Forall (λ d, (if negb (String.eqb (pretty d) "")
                               then match parseInt (pretty d) with
                                    | Some n => if (1 <=? n) && (n <=? 60) then n else 15
                                    | None => 15
                                    end
                               else 15) = d) (seqZ 1 60)).
  { apply (bool_decide_unpack _). vm_compute. exact I. }
  rewrite Forall_forall in Hall. apply Hall, elem_of_seqZ. lia.
Qed.

Ltac handles :=
  repeat match goal with
         | |- context [Nat.eqb ?a ?b] => destruct (Nat.eqb_spec a b); try lia; simpl
         | H : context [Nat.eqb ?a ?b] |- _ => destruct (Nat.eqb_spec a b); try lia; simpl in H
         end.

Ltac open_invariant H :=
  destruct H as [Hdur Htimers]; unfold timers_of in Htimers; simpl in *.

Lemma invariant_init st now : invariant (init now (initial st)).
Proof. split; [exact (getLastDuration_range st) | done]. Qed.

Lemma invariant_handleWheel deltaY w : invariant w → invariant (handleWheel deltaY w).
Proof.
  intros H. unfold handleWheel. case_decide as Hs; [done|].
  destruct w; open_invariant H. destruct (deltaY <? 0); (split; simpl; [lia | done]).
Qed.

Lemma invariant_handleTouchStart y w : invariant w → invariant (handleTouchStart y w).
Proof.
  intros H. unfold handleTouchStart. case_decide as Hs; [done|].
  destruct w; open_invariant H. by split.
Qed.

Lemma invariant_handleTouchMove y w : invariant w → invariant (handleTouchMove y w).
Proof.
  intros H. unfold handleTouchMove. case_decide as Hs; [done|].
  destruct w; open_invariant H. case_decide; (split; simpl; [lia | done]).
Qed.

Lemma invariant_startSession now random w :
  state w = Idle → invariant w → invariant (startSession now random w).
Proof.
  intros Hs H. destruct w; open_invariant H. subst.
  destruct Htimers as (-> & -> & -> & ->).
  split; [done|]. unfold timers_of; simpl. eexists. repeat split. lia.
Qed.

Lemma invariant_respond random w :
  invariant w → invariant (respondToAttentionCheck random w).
Proof.
  intros H. unfold respondToAttentionCheck. case_decide as Hs; [done|].
  destruct w; open_invariant H. subst.
  destruct Htimers as (h & hb & ht & start & -> & -> & -> & -> & Hlt & Hnext).
  split; [done|]. unfold timers_of, respondToAttentionCheck, clearAttentionCheck, clearTimer; simpl. handles.
  exists h. repeat split. lia.
Qed.

Lemma invariant_handleAction now random w :
  invariant w → invariant (handleAction now random w).
Proof.
  intros H. unfold handleAction. destruct (state w) eqn:Hs; try done.
  - by apply invariant_startSession.
  - by apply invariant_respond.
Qed.

(** [cleanup] leaves no live timer, whatever the state it is called in. *)
Lemma cleanup_timers w :
  invariant w →
  timers (cleanup w) = [] ∧ timerInterval (cleanup w) = None ∧
  attentionBarInterval (cleanup w) = None ∧ attentionTimeout (cleanup w) = None ∧
  durationMinutes (cleanup w) = durationMinutes w ∧
  attentionChecksResponded (cleanup w) = attentionChecksResponded w ∧
  sessionStartTime (cleanup w) = sessionStartTime w ∧
  storage (cleanup w) = storage w.
Proof.
  intros H. destruct w; open_invariant H.
  destruct state0.
  - destruct Htimers as (-> & -> & -> & ->). done.
  - destruct Htimers as (h & -> & -> & -> & -> & Hnext).
    unfold cleanup, clearAttentionCheck, clearTimer; simpl. handles. done.
  - destruct Htimers as (h & hb & ht & start & -> & -> & -> & -> & Hlt & Hnext).
    unfold cleanup, clearAttentionCheck, clearTimer; simpl. handles. done.
  - destruct Htimers as (-> & -> & -> & ->). done.
  - destruct Htimers as (-> & -> & -> & ->). done.
Qed.

Lemma invariant_completeTimer w : invariant w → invariant (completeTimer w).
Proof.
  intros H. destruct (cleanup_timers w H) as (Ht & Hi & Hb & Ho & Hd & _).
  destruct H as [Hdur _]. unfold completeTimer.
  split; [simpl; by rewrite Hd|]. unfold timers_of. simpl. done.
Qed.

Lemma invariant_triggerAttentionCheck now w :
  state w = Running → invariant w → invariant (triggerAttentionCheck now w).
Proof.
  intros Hs H. destruct w; open_invariant H. subst.
  destruct Htimers as (h & -> & -> & -> & -> & Hnext).
  split; [done|]. unfold timers_of; simpl. exists h. eexists _, _, _. repeat split; lia.
Qed.

Lemma invariant_set_counters r n w :
  invariant w → invariant (set_nextAttentionCheck n (set_remainingSeconds r w)).
Proof. intros H. destruct w. exact H. Qed.

Lemma invariant_onTick now w : invariant w → invariant (onTick now w).
Proof.
  intros H. unfold onTick. cbv zeta.
  set (w1 := set_nextAttentionCheck _ (set_remainingSeconds _ w)).
  assert (H1 : invariant w1) by by apply invariant_set_counters.
  clearbody w1. clear H.
  assert (H2 : ∀ w2, invariant w2 →
            invariant (if remainingSeconds w2 <=? 0
                       then completeTimer (set_remainingSeconds 0 w2) else w2)).
  { intros w2 H2. destruct (remainingSeconds w2 <=? 0); [|done].
    apply invariant_completeTimer. destruct w2. exact H2. }
  apply H2. destruct (_ && _) eqn:Hc; [|done].
  apply andb_true_iff in Hc as [_ Hc]. apply bool_decide_eq_true in Hc.
  by apply invariant_triggerAttentionCheck.
Qed.

Lemma invariant_onAttentionBar start now w :
  invariant w → invariant (onAttentionBar start now w).
Proof. intros H. destruct w. exact H. Qed.

Lemma invariant_confirmCompletion stayedBored now uuid w :
  state w = Completed → invariant w → invariant (confirmCompletion stayedBored now uuid w).
Proof.
  intros Hs H. unfold confirmCompletion.
  destruct (saveSession _ _ _) as [data st]. destruct w; open_invariant H. subst.
  split; [done|]. unfold timers_of; simpl. done.
Qed.

Lemma invariant_dismissFailed w : state w = Failed → invariant w → invariant (dismissFailed w).
Proof.
  intros Hs H. destruct w; open_invariant H. subst. split; [done|]. unfold timers_of; simpl. done.
Qed.

Lemma invariant_handleImport now raw w : invariant w → invariant (handleImport now raw w).
Proof.
  intros H. unfold handleImport. destruct (importData _ _ _) as [[result|] st].
  - destruct (success result); destruct w; exact H.
  - destruct w; exact H.
Qed.

#[local] Opaque recalculateStreaks getCompletedDays.

(** The timeout of the attention check is live in the state
    [attention-check] only, and this is what its firing does. *)
Lemma timeout_fires h now uuid w :
  invariant w →
  live_callback h w = Some OnAttentionTimeout →
  state w = AttentionCheck ∧
  let w' := handle (TimerFires h now uuid) w in
  state w' = Failed ∧
  timers w' = [] ∧ timerInterval w' = None ∧
  attentionBarInterval w' = None ∧ attentionTimeout w' = None ∧
  durationMinutes w' = durationMinutes w ∧
  remainingSeconds w' = durationMinutes w * 60 ∧
  sessions (loadData (storage w')) =
    sessions (loadData (storage w)) ++ [failed_session uuid w].
Proof.
  intros H Hlive. unfold handle. rewrite Hlive. revert Hlive.
  destruct w; open_invariant H. unfold live_callback; simpl. destruct state0.
  - destruct Htimers as (-> & _). done.
  - destruct Htimers as (h0 & -> & _). simpl. by destruct (h0 =? h)%nat.
  - destruct Htimers as (h0 & hb & ht & start & -> & -> & -> & -> & Hlt & Hnext). simpl.
    destruct (Nat.eqb_spec h0 h); [done|]. simpl.
    destruct (Nat.eqb_spec hb h); [done|]. simpl.
    destruct (Nat.eqb_spec ht h) as [->|]; [|done]. intros _. split; [done|].
    unfold failSession, cleanup, clearAttentionCheck, clearTimer, saveSession; simpl. handles.
    done.
  - destruct Htimers as (-> & _). done.
  - destruct Htimers as (-> & _). done.
Qed.

Lemma invariant_handle e w : invariant w → invariant (handle e w).
Proof.
  intros H. destruct e as [deltaY|y|y|now random|stayedBored now uuid| |h now uuid|now raw].
  - by apply invariant_handleWheel.
  - by apply invariant_handleTouchStart.
  - by apply invariant_handleTouchMove.
  - by apply invariant_handleAction.
  - simpl. case_decide; [by apply invariant_confirmCompletion | done].
  - simpl. case_decide; [by apply invariant_dismissFailed | done].
  - destruct (live_callback h w) as [[|start|]|] eqn:Hlive.
    + simpl. rewrite Hlive. by apply invariant_onTick.
    + simpl. rewrite Hlive. by apply invariant_onAttentionBar.
    + destruct (timeout_fires h now uuid w H Hlive) as (_ & Hs & Ht & Hi & Hb & Ho & Hd & _).
      destruct H as [Hdur _]. split; [by rewrite Hd|]. unfold timers_of. by rewrite Hs.
    + simpl. by rewrite Hlive.
  - by apply invariant_handleImport.
Qed.

Lemma reachable_invariant w : reachable w → invariant w.
Proof.
  induction 1 as [st now|e w _ IH]; [apply invariant_init | by apply invariant_handle].
Qed.

(** *** What the handlers leave alone *)

Ltac frame w :=
  destruct w; cbn;
  repeat (match goal with
          | |- context [match ?x with _ => _ end] => destruct x eqn:?; cbn
          end);
  try done.

Lemma cleanup_frame w :
  storage (cleanup w) = storage w ∧
  attentionChecksResponded (cleanup w) = attentionChecksResponded w.
Proof. unfold cleanup, clearAttentionCheck, clearTimer. frame w. Qed.

Lemma onTick_frame now w :
  storage (onTick now w) = storage w ∧
  attentionChecksResponded (onTick now w) = attentionChecksResponded w.
Proof.
  unfold onTick, completeTimer, triggerAttentionCheck, cleanup, clearAttentionCheck,
    clearTimer, setTimer.
  frame w.
Qed.

Lemma failSession_frame now uuid w :
  attentionChecksResponded (failSession now uuid w) = attentionChecksResponded w ∧
  ∃ s, sessions (loadData (storage (failSession now uuid w))) =
         sessions (loadData (storage w)) ++ [s] ∧ record_invariant s.
Proof.
  split.
  - unfold failSession, saveSession, cleanup, clearAttentionCheck, clearTimer. frame w.
  - exists (failed_session uuid (cleanup (clearAttentionCheck w))). split.
    + unfold failSession, saveSession. cbn.
      destruct (cleanup_frame (clearAttentionCheck w)) as [-> _].
      unfold clearAttentionCheck, clearTimer. frame w.
    + split; simpl; [by intros [? _] | by split].
Qed.

Lemma confirmCompletion_frame stayedBored now uuid w :
  attentionChecksResponded (confirmCompletion stayedBored now uuid w) =
    attentionChecksResponded w ∧
  ∃ s, sessions (loadData (storage (confirmCompletion stayedBored now uuid w))) =
         sessions (loadData (storage w)) ++ [s] ∧ record_invariant s.
Proof.
  split; [by destruct w|]. exists (confirmed_session stayedBored now uuid w). split.
  - unfold confirmCompletion, saveSession. by destruct w.
  - destruct stayedBored; split; simpl; try (by intros [_ ?]); by split.
Qed.

(** The responded count is put to 0 by a start, incremented by an answer,
    and left alone by everything else. *)
Lemma handle_responded e w :
  attentionChecksResponded (handle e w) =
  match e, state w with
  | Action _ _, Idle => 0
  | Action _ _, AttentionCheck => attentionChecksResponded w + 1
  | _, _ => attentionChecksResponded w
  end.
Proof.
  destruct e as [deltaY|y|y|now random|stayedBored now uuid| |h now uuid|now raw]; simpl.
  - unfold handleWheel. case_decide; [done|]. by destruct w, (deltaY <? 0).
  - unfold handleTouchStart. case_decide; [done|]. by destruct w.
  - unfold handleTouchMove. case_decide; [done|]. destruct w; simpl. by case_decide.
  - unfold handleAction. destruct (state w) eqn:Hs; try done.
    unfold respondToAttentionCheck. rewrite decide_False by (by intros []).
    unfold clearAttentionCheck, clearTimer. frame w.
  - case_decide; [|done]. apply confirmCompletion_frame.
  - case_decide; [|done]. by destruct w.
  - destruct (live_callback h w) as [[|start|]|]; try done.
    + apply onTick_frame.
    + destruct (failSession_frame now uuid (clearTimer h w)) as [-> _]. by destruct w.
  - unfold handleImport. destruct (importData _ _ _) as [[result|] st].
    + destruct (success result); by destruct w.
    + by destruct w.
Qed.

(** Every event other than an import leaves the stored sessions alone or
    appends one record that satisfies the record invariant. *)
Lemma handle_sessions e w :
  is_import e = false →
  ∃ news, sessions (loadData (storage (handle e w))) =
            sessions (loadData (storage w)) ++ news ∧
          Forall record_invariant news.
Proof.
  assert (Hsame : ∀ w', sessions (loadData (storage w')) = sessions (loadData (storage w)) →
            ∃ news, sessions (loadData (storage w')) =
                      sessions (loadData (storage w)) ++ news ∧
                    Forall record_invariant news).
  { intros w' ->. exists []. by rewrite app_nil_r. }
  assert (Hone : ∀ w', (∃ s, sessions (loadData (storage w')) =
                             sessions (loadData (storage w)) ++ [s] ∧ record_invariant s) →
            ∃ news, sessions (loadData (storage w')) =
                      sessions (loadData (storage w)) ++ news ∧
                    Forall record_invariant news).
  { intros w' (s & -> & Hs). exists [s]. split; [done | by constructor]. }
  destruct e as [deltaY|y|y|now random|stayedBored now uuid| |h now uuid|now raw];
    simpl; intros Himport; try done.
  - apply Hsame. unfold handleWheel. case_decide; [done|]. by destruct w, (deltaY <? 0).
  - apply Hsame. unfold handleTouchStart. case_decide; [done|]. by destruct w.
  - apply Hsame. unfold handleTouchMove. case_decide; [done|]. destruct w; simpl.
    by case_decide.
  - apply Hsame. unfold handleAction. destruct (state w) eqn:Hs; try done.
    unfold respondToAttentionCheck. rewrite decide_False by (by intros []).
    unfold clearAttentionCheck, clearTimer. frame w.
  - case_decide; [|by apply Hsame]. apply Hone, confirmCompletion_frame.
  - apply Hsame. case_decide; [|done]. by destruct w.
  - destruct (live_callback h w) as [[|start|]|]; try by apply Hsame.
    + apply Hsame. by destruct (onTick_frame now w) as [-> _].
    + apply Hone. destruct (failSession_frame now uuid (clearTimer h w)) as [_ (s & Hs & Hinv)].
      exists s. split; [|done]. rewrite Hs. by destruct w.
Qed.


Lemma run_responded events : ∀ w,
  attentionChecksResponded (run events w) = answered events w (attentionChecksResponded w).
Proof.
  induction events as [|e events IH]; intros w; [done|].
  simpl. rewrite IH, handle_responded. by destruct e, (state w).
Qed.

Lemma reachable_run events : ∀ w, reachable w → reachable (run events w).
Proof.
  induction events as [|e events IH]; intros w Hw; [done|].
  apply IH. by constructor.
Qed.

(** C7. Along every run of the mounted component, when the timeout of the
    attention check fires the controller is in [attention-check]; it goes
    to [failed], no timer stays live, and exactly one record is appended
    to the stored sessions: not completed, no completion date, the
    attention check failed, and as responded count the number of checks
    answered so far in the session. *)
Theorem attention_timeout_fails st mountedAt events h now uuid :
  let w := run events (init mountedAt (initial st)) in
  live_callback h w = Some OnAttentionTimeout →
  state w = AttentionCheck ∧
  state (handle (TimerFires h now uuid) w) = Failed ∧
  timers (handle (TimerFires h now uuid) w) = [] ∧
  timerInterval (handle (TimerFires h now uuid) w) = None ∧
  attentionBarInterval (handle (TimerFires h now uuid) w) = None ∧
  attentionTimeout (handle (TimerFires h now uuid) w) = None ∧
  sessions (loadData (storage (handle (TimerFires h now uuid) w))) =
    sessions (loadData (storage w)) ++
    [ {| id := VStr uuid;
         startTime := VStr (sessionStartTime w);
         duration := durationMinutes w;
         completed := false;
         completedAt := VNull;
         failedAttentionCheck := VBool true;
         Store.attentionChecksResponded :=
           VNum (answered events (init mountedAt (initial st)) 0) |} ].
Proof.
  intros w Hlive.
  assert (Hw : reachable w) by (apply reachable_run; constructor).
  destruct (timeout_fires h now uuid w (reachable_invariant w Hw) Hlive)
    as (Hs & Hf & Ht & Hi & Hb & Ho & _ & _ & Hsessions).
  assert (Hcount : answered events (init mountedAt (initial st)) 0 = attentionChecksResponded w).
  { subst w. by rewrite run_responded. }
  rewrite Hcount. done.
Qed.

(** C8. In every reachable state a wheel or touch adjustment changes
    nothing unless the state is [idle]; in [idle] the wheel moves the
    duration by one minute within [1, 60], the touch by the dragged steps
    clamped to [1, 60], the countdown shows the new duration in seconds,
    and the duration is stored as the default of the next session. *)
Theorem duration_adjust w :
  reachable w →
  (state w ≠ Idle →
   ∀ d, handleWheel d w = w ∧ handleTouchStart d w = w ∧ handleTouchMove d w = w) ∧
  (state w = Idle →
   ∀ w', (∃ deltaY, w' = handleWheel deltaY w) ∨
         (∃ clientY, w' = handleTouchMove clientY w ∧
                     (touchAccumulated w + (touchStartY w - clientY)) `quot` 30 ≠ 0) →
     state w' = Idle ∧
     1 ≤ durationMinutes w' ≤ 60 ∧
     remainingSeconds w' = durationMinutes w' * 60 ∧
     stored_last_duration (storage w') = Some (pretty (durationMinutes w')) ∧
     getLastDuration (storage w') = durationMinutes w') ∧
  (∀ deltaY, state w = Idle →
     durationMinutes (handleWheel deltaY w) =
     if deltaY <? 0 then Z.min 60 (durationMinutes w + 1)
     else Z.max 1 (durationMinutes w - 1)).
Proof.
  intros Hw. pose proof (reachable_invariant w Hw) as [Hdur _].
  split; [|split].
  - intros Hs d. unfold handleWheel, handleTouchStart, handleTouchMove.
    by rewrite !decide_True.
  - intros Hs w' [[deltaY ->]|(clientY & -> & Hsteps)].
    + unfold handleWheel. rewrite decide_False by (by intros []).
      destruct w; simpl in *. subst.
      destruct (deltaY <? 0); simpl;
        (split; [done|]; split; [lia|]; split; [done|]; split; [done|]);
        apply getLastDuration_setLastDuration; lia.
    + unfold handleTouchMove. rewrite decide_False by (by intros []).
      destruct w; simpl in *. subst. rewrite decide_True by done. simpl.
      (split; [done|]; split; [lia|]; split; [done|]; split; [done|]).
      apply getLastDuration_setLastDuration; lia.
  - intros deltaY Hs. unfold handleWheel. rewrite decide_False by (by intros []).
    destruct w; simpl. by destruct (deltaY <? 0).
Qed.

(** C10. In every export the total is the completed plus the failed
    sessions, the failed sessions being all those with [completed =
    false]; a session confirmed as "got distracted" has
    [failedAttentionCheck = false] and adds one to the failed sessions. *)
Theorem export_total_is_completed_plus_failed now st :
  totalSessions (stats (exportData now st)) =
    completedSessions (stats (exportData now st)) +
    failedSessions (stats (exportData now st)) ∧
  failedSessions (stats (exportData now st)) =
    Z.of_nat (length (List.filter (λ s, bool_decide (completed s = false))
                                  (sessions (loadData st)))) ∧
  ∀ now' uuid w,
    storage w = st →
    failedAttentionCheck (confirmed_session false now' uuid w) = VBool false ∧
    sessions (loadData (storage (confirmCompletion false now' uuid w))) =
      sessions (loadData st) ++ [confirmed_session false now' uuid w] ∧
    failedSessions (stats (exportData now (storage (confirmCompletion false now' uuid w)))) =
      failedSessions (stats (exportData now st)) + 1 ∧
    completedSessions (stats (exportData now (storage (confirmCompletion false now' uuid w)))) =
      completedSessions (stats (exportData now st)).
Proof.
  split; [apply ExportFacts.export_counts|]. split.
  - simpl. do 2 f_equal. apply filter_ext. intros s. by destruct (completed s).
  - intros now' uuid w <-. split; [done|].
    assert (Hsessions : sessions (loadData (storage (confirmCompletion false now' uuid w))) =
              sessions (loadData (storage w)) ++ [confirmed_session false now' uuid w]).
    { unfold confirmCompletion, saveSession. by destruct w. }
    split; [done|]. unfold exportData. cbn [stats failedSessions completedSessions].
    rewrite Hsessions, !List.filter_app, !length_app. simpl. lia.
Qed.

End WithRuntime.
End TimerFacts.

Module TimerExamples.
Import Store Spec Timer TimerFacts Examples.

Example at_check_state :
  state at_check = AttentionCheck ∧
  timers at_check = [(1%nat, OnTick); (2%nat, OnAttentionBar (jan5 + 30000));
                     (3%nat, OnAttentionTimeout)] ∧
  remainingSeconds at_check = 870.
Proof. vm_compute. repeat split. Qed.

Example answered_after_one_response :
  answered (RT := browser) (first_check ++ [Action (jan5 + 35000) 0]) mounted 0 = 1.
Proof. vm_compute. reflexivity. Qed.

Lemma at_check_reachable : @reachable browser at_check.
Proof. apply reachable_run. constructor. Qed.

Lemma attention_timeout_fails_witness :
  state (handle (RT := browser) (TimerFires 3 (jan5 + 40000) "f1") at_check) = Failed ∧
  timers (handle (RT := browser) (TimerFires 3 (jan5 + 40000) "f1") at_check) = [].
Proof.
  destruct (attention_timeout_fails (RT := browser) empty_storage jan5 first_check
              3 (jan5 + 40000) "f1" eq_refl) as (_ & Hs & Ht & _).
  split; [exact Hs | exact Ht].
Defined.

Lemma mounted_reachable : @reachable browser mounted.
Proof. constructor. Qed.

Lemma duration_adjust_witness :
  durationMinutes (handleWheel (-1) mounted) = 16 ∧
  getLastDuration (storage (handleWheel (-1) mounted)) =
  durationMinutes (handleWheel (-1) mounted) ∧
  handleWheel (-1) at_check = at_check.
Proof.
  destruct (duration_adjust (RT := browser) mounted mounted_reachable) as (_ & Hidle & Hstep).
  destruct (duration_adjust (RT := browser) at_check at_check_reachable) as (Hbusy & _).
  split; [exact (Hstep (-1) eq_refl)|]. split.
  - destruct (Hidle eq_refl _ (or_introl (ex_intro _ (-1) eq_refl))) as (_ & _ & _ & _ & H).
    exact H.
  - assert (Hs : state at_check = AttentionCheck) by (vm_compute; reflexivity).
    assert (Hne : state at_check ≠ Idle) by (rewrite Hs; discriminate).
    exact (proj1 (Hbusy Hne (-1))).
Defined.

Lemma export_total_is_completed_plus_failed_witness :
  failedSessions
    (stats (exportData (RT := browser) jan6
              (storage (confirmCompletion (RT := browser) false jan5 "d1" mounted)))) =
  failedSessions (stats (exportData (RT := browser) jan6 empty_storage)) + 1.
Proof.
  destruct (proj2 (proj2 (export_total_is_completed_plus_failed (RT := browser)
                            jan6 empty_storage)) jan5 "d1" mounted eq_refl)
    as (_ & _ & H & _).
  exact H.
Defined.

(** The sessions of the counterexample to C6 as the application itself
    stores them. *)
Example three_sessions_rate :
  let w := run (RT := browser) three_sessions mounted in
  state w = Idle ∧
  map (λ s, (completed s, failedAttentionCheck s, Store.attentionChecksResponded s))
      (sessions (loadData (storage w))) =
    [ (false, VBool true, VNum 0); (false, VBool true, VNum 0); (true, VBool false, VNum 1) ] ∧
  attentionCheckSuccessRate (stats (exportData (RT := browser) jan6 (storage w))) =
    Some (-1 # 1).
Proof. vm_compute. repeat split. Qed.

End TimerExamples.

(* ===================================================================== *)
(** * The record invariant *)
(* ===================================================================== *)

Module RecordFacts.
Import Store Spec.

Section WithRuntime.
Context `{RT : Runtime}.


End WithRuntime.
End RecordFacts.

Module RecordExamples.
Import Store Spec Examples RecordFacts.


End RecordExamples.

(* ===================================================================== *)
(** * Streaks: bounds, monotonicity, and the walk by time zone *)
(* ===================================================================== *)

Module MoreStreakFacts.
Import Store Spec StreakFacts.

Section WithRuntime.
Context `{RT : Runtime}.





Lemma getCompletedDays_ext ss ss' :
  (∀ s, completed s && truthy (completedAt s) = true → (s ∈ ss ↔ s ∈ ss')) →
  getCompletedDays ss = getCompletedDays ss'.
Proof.
  intros H. apply set_eq. intros k. rewrite !elem_of_getCompletedDays.
  split; intros (s & Hs & Hc & Ht & Hk); exists s; (split; [|done]);
    apply (H s); try done; by rewrite Hc, Ht.
Qed.

(** X2. [recalculateStreaks] reads the sessions only through the completed
    ones that have a [completedAt]: two lists that hold the same such
    sessions, in any order, any number of times and among any other
    sessions, give the same streaks. *)
Theorem streaks_ignore_order_and_uncompleted now ss ss' :
  (∀ s, completed s && truthy (completedAt s) = true → (s ∈ ss ↔ s ∈ ss')) →
  recalculateStreaks now ss = recalculateStreaks now ss'.
Proof. intros H. unfold recalculateStreaks. by rewrite (getCompletedDays_ext ss ss' H). Qed.



Lemma longest_cases now sessions :
  (getCompletedDays sessions = ∅ ∧ streaks_longest (recalculateStreaks now sessions) = 0) ∨
  (getCompletedDays sessions ≠ ∅ ∧
   longest_run (getCompletedDays sessions) (streaks_longest (recalculateStreaks now sessions))).
Proof.
  destruct (decide (getCompletedDays sessions = ∅)) as [He|Hne].
  - left. split; [done|]. by rewrite recalculateStreaks_empty.
  - right. split; [done|]. rewrite recalculateStreaks_longest_of by done.
    by apply longest_of_spec.
Qed.


Lemma run_size (days : gset DayKey) first n : is_run days first n → n ≤ Z.of_nat (size days).
Proof.
  destruct first as [d|]; simpl.
  - intros [Hn Hrun].
    set (f := λ k : nat, Some (d + Z.of_nat k) : DayKey).
    assert (Hnd : NoDup (f <$> seq 0 (Z.to_nat n))).
    { apply NoDup_fmap_2; [|apply NoDup_seq]. intros a b [= H]. lia. }
    assert (Hsub : f <$> seq 0 (Z.to_nat n) ⊆+ elements days).
    { apply NoDup_submseteq; [done|]. intros x Hx.
      apply list_elem_of_fmap in Hx as (k & -> & Hk). apply elem_of_seq in Hk.
      apply elem_of_elements, Hrun. lia. }
    apply submseteq_length in Hsub. rewrite length_fmap, length_seq in Hsub.
    unfold size, set_size. simpl. lia.
  - intros [-> Hin]. assert (size days ≠ 0%nat); [|lia].
    intros H. apply size_zero_empty in H. by rewrite H in Hin.
Qed.

Lemma size_getCompletedDays ss :
  (size (getCompletedDays ss) ≤ length (List.filter (λ s, completed s) ss))%nat.
Proof.
  induction ss as [|s ss IH] using rev_ind; [done|].
  rewrite getCompletedDays_snoc, List.filter_app, length_app. simpl.
  destruct (completed s); simpl; [|lia].
  destruct (truthy (completedAt s)); [|lia].
  pose proof (size_union_alt (getCompletedDays ss) {[toLocalDateString (completedAt s)]}) as H.
  assert (Hsub : {[toLocalDateString (completedAt s)]} ∖ getCompletedDays ss ⊆
                 ({[toLocalDateString (completedAt s)]} : gset DayKey)).
  { intros x Hx. by apply elem_of_difference in Hx as [Hx _]. }
  pose proof (subseteq_size _ _ Hsub) as H'.
  rewrite size_singleton in H'. lia.
Qed.

(** X4. The longest streak is at most the number of distinct completed days,
    which is at most the number of completed sessions. *)
Theorem longest_streak_at_most_completed now sessions :
  streaks_longest (recalculateStreaks now sessions) ≤
  Z.of_nat (size (getCompletedDays sessions)) ∧
  (size (getCompletedDays sessions) ≤ length (List.filter (λ s, completed s) sessions))%nat.
Proof.
  split; [|apply size_getCompletedDays].
  destruct (longest_cases now sessions) as [[_ ->]|[_ [[first Hrun] _]]]; [lia|].
  by eapply run_size.
Qed.

(** X5. East of Greenwich and on it (a zone offset from 0 up to, not
    including, 24 hours) the current streak is counted backward from today
    when today is a completed day, from yesterday when only yesterday is,
    and is 0 when neither is; it is at least 1 exactly when today or
    yesterday is a completed day. *)
Theorem current_streak_east_of_greenwich now sessions :
  0 ≤ tzOffsetMinutes < 1440 →
  let days := getCompletedDays sessions in
  let today := localDay now in
  let r := streaks_current (recalculateStreaks now sessions) in
  (Some today ∈ days → counts_back days today r) ∧
  (Some today ∉ days → Some (today - 1) ∈ days → counts_back days (today - 1) r) ∧
  (Some today ∉ days → Some (today - 1) ∉ days → r = 0) ∧
  (1 ≤ r ↔ Some today ∈ days ∨ Some (today - 1) ∈ days).
Proof.
  intros Htz days today r.
  destruct (current_streak_east now sessions Htz) as (H1 & H2 & H3).
  fold days today r in H1, H2, H3. split; [done|]. split; [done|]. split; [done|].
  destruct (decide (Some today ∈ days)) as [Ht|Ht].
  - split; [by left|]. intros _. destruct (H1 Ht) as (Hr & Hin & Hout).
    destruct (decide (1 ≤ r)); [done|]. exfalso. apply Hout.
    by replace r with 0 by lia; rewrite Z.sub_0_r.
  - destruct (decide (Some (today - 1) ∈ days)) as [Hy|Hy].
    + split; [by right|]. intros _. destruct (H2 Ht Hy) as (Hr & Hin & Hout).
      destruct (decide (1 ≤ r)); [done|]. exfalso. apply Hout.
      by replace r with 0 by lia; rewrite Z.sub_0_r.
    + rewrite (H3 Ht Hy). split; [lia | by intros [|]].
Qed.

(** X6. West of Greenwich the walk of [recalculateStreaks] starts one day
    early: with today completed it counts backward from yesterday, with
    today not completed from the day before yesterday, and it gives 0 when
    that day is not completed.  So a completion today with none yesterday
    gives a current streak of 0. *)
Theorem current_streak_west_of_greenwich now sessions :
  -1440 ≤ tzOffsetMinutes < 0 →
  let days := getCompletedDays sessions in
  let today := localDay now in
  let r := streaks_current (recalculateStreaks now sessions) in
  (Some today ∈ days → counts_back days (today - 1) r) ∧
  (Some today ∉ days → Some (today - 2) ∈ days → counts_back days (today - 2) r) ∧
  (Some today ∉ days → Some (today - 2) ∉ days → r = 0) ∧
  (Some today ∈ days → Some (today - 1) ∉ days → r = 0).
Proof.
  intros Htz days today r.
  destruct (current_streak_west now sessions Htz) as (H1 & H2 & H3).
  fold days today r in H1, H2, H3. split; [done|]. split; [done|]. split; [done|].
  intros Ht Hy. destruct (H1 Ht) as (Hr & Hin & _).
  destruct (decide (1 ≤ r)); [|lia]. exfalso. apply Hy.
  rewrite <- (Z.sub_0_r (today - 1)). apply Hin. lia.
Qed.

End WithRuntime.
End MoreStreakFacts.

(* ===================================================================== *)
(** * Import, export and the stored duration *)
(* ===================================================================== *)

Module MoreImportFacts.
Import Store Spec Json ImportFacts.

Section WithRuntime.
Context `{RT : Runtime}.

Lemma or_default_normal x d :
  (x = d ∨ truthy x = true) → or_default (Some x) d = x.
Proof. intros [->|H]; simpl; [by destruct (truthy d) | by rewrite H]. Qed.

Lemma normalize_Session_json s :
  normal_form s = true → normalize (Session_json s) = Normal s.
Proof.
  unfold normal_form. intros [[[[Hi Ht]%andb_true_iff Hc]%andb_true_iff Hf]%andb_true_iff
                               Ha]%andb_true_iff.
  destruct s as [i t d c ca f a]; simpl in *.
  unfold normalize, Session_json. cbn -[or_default].
  rewrite !or_default_normal.
  - done.
  - destruct a as [|b|n| | |]; auto. destruct n; auto.
  - destruct f as [|[]| | | |]; auto.
  - destruct ca; auto.
Qed.

Lemma has_required_Session_json s :
  normal_form s = true → has_required (Session_json s) = true.
Proof.
  unfold normal_form. intros [[[[Hi Ht]%andb_true_iff _]%andb_true_iff _]%andb_true_iff
                               _]%andb_true_iff.
  unfold has_required. simpl. by rewrite Hi, Ht.
Qed.

(** The normalised copy of a valid entry is in normal form. *)
Lemma normalize_normal_form e n :
  has_required e = true → normalize e = Normal n → normal_form n = true.
Proof.
  destruct e as [| | | | |fields]; try done. unfold has_required, normalize. simpl.
  intros [[[Hi Ht]%andb_true_iff _]%andb_true_iff _]%andb_true_iff [= <-].
  unfold normal_form. simpl.
  destruct (assoc "id" fields) as [i|]; [|done].
  destruct (assoc "startTime" fields) as [t|]; [|done]. simpl in *. rewrite Hi, Ht. simpl.
  assert (H1 : ∀ x, match or_default x VNull with VNull => true | v => truthy v end = true).
  { intros [v|]; simpl; [|done]. destruct (truthy v) eqn:Hv; [|done]. by destruct v. }
  assert (H2 : ∀ x, match or_default x (VBool false) with
                    | VBool false => true | v => truthy v end = true).
  { intros [v|]; simpl; [|done]. destruct (truthy v) eqn:Hv; [|done].
    by destruct v as [|[]| | | |]. }
  assert (H3 : ∀ x, match or_default x (VNum 0) with
                    | VNum 0 => true | v => truthy v end = true).
  { intros [v|]; simpl; [|done]. destruct (truthy v) eqn:Hv; [|done].
    destruct v as [| |n| | |]; try done. by destruct n. }
  by rewrite H1, H2, H3.
Qed.

(** A call either leaves the storage alone or ran on a valid bundle. *)
Lemma importData_cases now raw st :
  snd (importData now raw st) = st ∨ ∃ entries, valid_bundle raw entries.
Proof.
  unfold importData.
  destruct (JSON_parse raw) as [parsed|] eqn:Hparse; [|by left].
  destruct (get_prop parsed "sessions") as [[[| | | |entries|]|]|] eqn:Hs; try by left.
  destruct (forallb has_required entries) eqn:Hvalid.
  - right. exists entries. by exists parsed.
  - left. by destruct (any_lacks_required_invalid _ Hvalid) as [->|[-> _]].
Qed.

Lemma importData_appends now raw st :
  ∃ news, sessions (loadData (snd (importData now raw st))) = sessions (loadData st) ++ news ∧
          Forall (λ n, normal_form n = true) news.
Proof.
  destruct (importData_cases now raw st) as [->|[entries Hvalid]].
  { exists []. by rewrite app_nil_r. }
  destruct (importData_valid now raw st entries Hvalid) as (news & -> & _ & Hnews).
  exists news. split; [done|].
  destruct Hvalid as (_ & _ & _ & Hreq). rewrite forallb_forall in Hreq.
  apply Forall_forall. intros n Hn.
  destruct (Forall2_elem_l _ _ _ _ Hnews Hn) as (e & He & Hnorm & _).
  apply list_elem_of_In, filter_In in He as [He _].
  by apply (normalize_normal_form e n); [apply Hreq|].
Qed.

(** X7. What [importData] answers, by the shape of the text.  A text that
    does not parse gives the invalid-format result; a parsed value other
    than [null] whose [sessions] is not an array gives the missing-data
    result; so does an array without a [null] entry in which some entry
    lacks a required field; in these three cases the storage is returned as
    it was.  An array whose entries all have the required fields gives a
    success result. *)
Theorem import_failure_modes now raw st :
  (JSON_parse raw = None → importData now raw st = (Normal invalid_format, st)) ∧
  (∀ parsed,
     JSON_parse raw = Some parsed → parsed ≠ VNull →
     (∀ entries, get_prop parsed "sessions" ≠ Normal (Some (VArr entries))) →
     importData now raw st = (Normal missing_data, st)) ∧
  (∀ parsed entries,
     JSON_parse raw = Some parsed →
     get_prop parsed "sessions" = Normal (Some (VArr entries)) →
     VNull ∉ entries → forallb has_required entries = false →
     importData now raw st = (Normal missing_data, st)) ∧
  (∀ parsed entries,
     JSON_parse raw = Some parsed →
     get_prop parsed "sessions" = Normal (Some (VArr entries)) →
     forallb has_required entries = true →
     ∃ res st', importData now raw st = (Normal res, st') ∧ success res = true).
Proof.
  split; [|split; [|split]].
  - intros H. unfold importData. by rewrite H.
  - intros parsed Hparse Hnull Hsessions. unfold importData. rewrite Hparse.
    destruct (get_prop parsed "sessions") as [[[| | | |entries|]|]|] eqn:Hs; try done.
    + by destruct (Hsessions entries).
    + by destruct parsed.
  - intros parsed entries Hparse Hs Hnull Hinvalid. unfold importData. rewrite Hparse, Hs.
    by destruct (any_lacks_required_invalid _ Hinvalid) as [->|[_ Hin]].
  - intros parsed entries Hparse Hs Hvalid.
    destruct (importData_valid now raw st entries) as (news & -> & _); [by exists parsed|].
    by eexists _, _.
Qed.

(** X8. From a structurally valid bundle [importData] appends, in order and
    normalised, exactly the entries whose [id] is not the [id] of a session
    stored before the import, and reports their number as imported and the
    number of the others as skipped.  The stored ids are read once, before
    the loop: a new [id] that occurs twice in the bundle counts twice. *)
Theorem import_takes_the_new_ids now raw st entries :
  valid_bundle raw entries →
  let ids := map id (sessions (loadData st)) in
  ∃ news st',
    importData now raw st =
      (Normal {| success := true;
                 message :=
                   import_message
                     (Z.of_nat (length (List.filter (is_new ids) entries)))
                     (Z.of_nat (length (List.filter (λ s, negb (is_new ids s)) entries))) |},
       st') ∧
    sessions (loadData st') = sessions (loadData st) ++ news ∧
    Forall2 (λ n s, normalize s = Normal n) news (List.filter (is_new ids) entries).
Proof.
  intros Hvalid ids.
  destruct (importData_valid now raw st entries Hvalid) as (news & -> & _ & Hnews).
  fold ids in Hnews. pose proof (Forall2_length _ _ _ Hnews) as Hlen.
  pose proof (ExportFacts.filter_partition_length (is_new ids) entries) as Hpart.
  rewrite Hlen.
  replace (Z.of_nat (length entries) - Z.of_nat (length (List.filter (is_new ids) entries)))
    with (Z.of_nat (length (List.filter (λ s, negb (is_new ids s)) entries))) by lia.
  eexists news, _. split; [reflexivity|]. split; [done|].
  eapply Forall2_impl; [done|]. by intros n s [? _].
Qed.

Lemma handle_prefix e w :
  ∃ news, sessions (loadData (Timer.storage (Timer.handle e w))) =
            sessions (loadData (Timer.storage w)) ++ news.
Proof.
  destruct (is_import e) eqn:He.
  - destruct e; try done. simpl. unfold Timer.handleImport.
    destruct (importData_appends now raw (Timer.storage w)) as (news & Hnews & _).
    exists news. rewrite <- Hnews.
    destruct (importData now raw (Timer.storage w)) as [[res|] st']; simpl.
    + destruct (success res); by destruct w.
    + by destruct w.
  - destruct (TimerFacts.handle_sessions e w He) as (news & H & _). by exists news.
Qed.

(** X9. The stored session list only grows: whatever events the component
    handles, imports included, the list stored before is a prefix of the
    list stored after.  Nothing removes or rewrites a stored session. *)
Theorem stored_sessions_append_only events : ∀ w,
  ∃ news, sessions (loadData (Timer.storage (Timer.run events w))) =
            sessions (loadData (Timer.storage w)) ++ news.
Proof.
  induction events as [|e events IH]; intros w.
  - exists []. by rewrite app_nil_r.
  - simpl. destruct (IH (Timer.handle e w)) as (news2 & ->).
    destruct (handle_prefix e w) as (news1 & ->).
    exists (news1 ++ news2). by rewrite app_assoc.
Qed.

Lemma is_new_nil s : is_new [] s = true.
Proof. unfold is_new. by destruct (entry_field "id" s). Qed.

Lemma filter_all {A} (f : A → bool) (l : list A) :
  (∀ x, f x = true) → List.filter f l = l.
Proof. intros H. induction l as [|x l IH]; simpl; [done|]. by rewrite H, IH. Qed.

Lemma normalized_back ss : ∀ news,
  forallb normal_form ss = true →
  Forall2 (λ n e, normalize e = Normal n) news (Session_json <$> ss) → news = ss.
Proof.
  induction ss as [|s ss IH]; intros news Hnf Hall; simpl in *.
  - by apply Forall2_nil_inv_r in Hall.
  - apply andb_true_iff in Hnf as [Hs Hss].
    apply Forall2_cons_inv_r in Hall as (n & news' & Hn & Hall & ->).
    rewrite normalize_Session_json in Hn by done. injection Hn as <-.
    f_equal. by apply IH.
Qed.

(** X10. Export, then import, restores the sessions.  When the text parses
    to an export of one storage, whose sessions are in the normal form that
    [importData] and the controller write, importing it into a storage
    without sessions succeeds, reports every session as imported and none as
    skipped, and stores the same session list, with the streaks computed
    from it at the instant of the import. *)
Theorem export_import_round_trip now now' raw st target :
  is_export_of raw (exportData now st) →
  forallb normal_form (sessions (loadData st)) = true →
  sessions (loadData target) = [] →
  ∃ st',
    importData now' raw target =
      (Normal {| success := true;
                 message := import_message (Z.of_nat (length (sessions (loadData st)))) 0 |},
       st') ∧
    sessions (loadData st') = sessions (loadData st) ∧
    currentStreak (loadData st') =
      streaks_current (recalculateStreaks now' (sessions (loadData st))) ∧
    longestStreak (loadData st') =
      streaks_longest (recalculateStreaks now' (sessions (loadData st))).
Proof.
  intros (parsed & Hparse & _ & Hsessions) Hnf Hempty. simpl in Hsessions.
  set (ss := sessions (loadData st)) in *.
  assert (Hvalid : valid_bundle raw (Session_json <$> ss)).
  { exists parsed. split; [done|]. split; [done|].
    apply forallb_forall. intros e He. apply list_elem_of_In, list_elem_of_fmap in He
      as (s & -> & Hs).
    apply has_required_Session_json. rewrite forallb_forall in Hnf.
    by apply Hnf, list_elem_of_In. }
  destruct (importData_valid now' raw target _ Hvalid) as (news & -> & _ & Hnews).
  rewrite Hempty in *. simpl in Hnews. rewrite filter_all in Hnews by apply is_new_nil.
  assert (news = ss) as ->.
  { apply normalized_back; [done|]. eapply Forall2_impl; [done|]. by intros n s [? _]. }
  rewrite length_fmap, Z.sub_diag. eexists. split; [done|]. by simpl.
Qed.

(** X11. [getLastDuration] always answers within 1..60: 15 when nothing or
    the empty string is stored, when the stored text does not start with a
    number, and when the number is outside 1..60; the number itself
    otherwise.  A duration in 1..60 that [setLastDuration] stores is read
    back. *)
Theorem last_duration_defaults st :
  1 ≤ getLastDuration st ≤ 60 ∧
  (stored_last_duration st = None ∨ stored_last_duration st = Some "" →
   getLastDuration st = 15) ∧
  (∀ raw, stored_last_duration st = Some raw → parseInt raw = None →
          getLastDuration st = 15) ∧
  (∀ raw n, stored_last_duration st = Some raw → parseInt raw = Some n →
            n < 1 ∨ 60 < n → getLastDuration st = 15) ∧
  (∀ raw n, stored_last_duration st = Some raw → raw ≠ "" → parseInt raw = Some n →
            1 ≤ n ≤ 60 → getLastDuration st = n) ∧
  (∀ d, 1 ≤ d ≤ 60 → getLastDuration (setLastDuration d st) = d).
Proof.
  split; [apply TimerFacts.getLastDuration_range|].
  split; [|split; [|split; [|split]]].
  - unfold getLastDuration. by intros [->| ->].
  - intros raw Hraw Hparse. unfold getLastDuration. rewrite Hraw, Hparse.
    by destruct (negb _).
  - intros raw n Hraw Hparse Hn. unfold getLastDuration. rewrite Hraw, Hparse.
    destruct (negb _); [|done].
    destruct ((1 <=? n) && (n <=? 60)) eqn:H; [|done].
    apply andb_true_iff in H as [H1 H2]. lia.
  - intros raw n Hraw Hne Hparse Hn. unfold getLastDuration. rewrite Hraw, Hparse.
    apply String.eqb_neq in Hne. rewrite Hne. simpl.
    destruct (Z.leb_spec 1 n), (Z.leb_spec n 60); simpl; try done; lia.
  - intros d Hd. by apply TimerFacts.getLastDuration_setLastDuration.
Qed.

End WithRuntime.
End MoreImportFacts.

(* ===================================================================== *)
(** * The session controller: what every reachable state keeps *)
(* ===================================================================== *)

Module MoreTimerFacts.
Import Store Spec ControllerSpec Timer TimerFacts.

Section WithRuntime.
Context `{RT : Runtime}.

#[local] Opaque recalculateStreaks getCompletedDays.

Ltac open_inv H :=
  destruct H as [Hdur Htimers]; unfold timers_of in Htimers; simpl in *.

Ltac eqbs :=
  repeat match goal with
         | |- context [Nat.eqb ?a ?b] => destruct (Nat.eqb_spec a b); try lia; simpl
         | H : context [Nat.eqb ?a ?b] |- _ => destruct (Nat.eqb_spec a b); try lia; simpl in H
         end.

Ltac leb_hyps :=
  repeat match goal with
         | H : (_ <=? _) = false |- _ => apply Z.leb_gt in H
         | H : (_ <=? _) = true |- _ => apply Z.leb_le in H
         | H : (_ <? _) = false |- _ => apply Z.ltb_ge in H
         | H : (_ <? _) = true |- _ => apply Z.ltb_lt in H
         end.

Ltac branches :=
  repeat (match goal with
          | |- context [if ?c then _ else _] => destruct c eqn:?; simpl
          | |- context [match ?x with _ => _ end] => destruct x eqn:?; simpl
          end).

Ltac tick_case :=
  branches; simpl in *; rewrite ?andb_true_r, ?andb_false_r in *; leb_hyps; eqbs;
  repeat match goal with H : _ ∧ _ |- _ => destruct H end;
  try done; try lia;
  try (exfalso; match goal with n : ¬ _ |- _ => apply n; split; [done | lia] end).

Lemma live_callback_state h cb w :
  invariant w → live_callback h w = Some cb →
  match cb with
  | OnTick => state w = Running ∨ state w = AttentionCheck
  | OnAttentionBar _ | OnAttentionTimeout => state w = AttentionCheck
  end.
Proof.
  intros H. destruct w; open_inv H. unfold live_callback; simpl. destruct state0.
  - destruct Htimers as (-> & _). done.
  - destruct Htimers as (h0 & -> & _). simpl. destruct (h0 =? h)%nat; [|done].
    intros [= <-]. by left.
  - intros Hcb. destruct cb; auto.
  - destruct Htimers as (-> & _). done.
  - destruct Htimers as (-> & _). done.
Qed.

Lemma countdown_init st now : countdown_ok (init now (initial st)).
Proof. reflexivity. Qed.

Lemma countdown_onTick now w :
  state w = Running ∨ state w = AttentionCheck →
  invariant w → countdown_ok w → countdown_ok (onTick now w).
Proof.
  intros Hs H Hc. destruct w; open_inv H. unfold countdown_ok in *; simpl in *.
  unfold onTick, completeTimer, triggerAttentionCheck, cleanup, clearAttentionCheck,
    clearTimer, setTimer; simpl.
  destruct Hs as [-> | ->]; simpl;
    repeat (match goal with
            | |- context [if ?c then _ else _] => destruct c eqn:?; simpl
            | |- context [match ?x with _ => _ end] => destruct x eqn:?; simpl
            end); simpl in *; leb_hyps; try done; try lia.
Qed.

Ltac frame w :=
  destruct w; cbn;
  repeat (match goal with
          | |- context [match ?x with _ => _ end] => destruct x eqn:?; cbn
          end);
  try done.

Lemma onTick_storage now w :
  storage (onTick now w) = storage w ∧
  attentionChecksResponded (onTick now w) = attentionChecksResponded w ∧
  completedDays (onTick now w) = completedDays w.
Proof.
  unfold onTick, completeTimer, triggerAttentionCheck, cleanup, clearAttentionCheck,
    clearTimer, setTimer.
  frame w.
Qed.

Lemma failSession_sync now uuid w :
  completedDays (failSession now uuid w) =
  getCompletedDays (sessions (loadData (storage (failSession now uuid w)))).
Proof.
  unfold failSession, saveSession, cleanup, clearAttentionCheck, clearTimer. frame w.
Qed.

Lemma in_step_init st now : in_step (init now (initial st)).
Proof. repeat split; done. Qed.

Lemma in_step_wheel deltaY w : in_step w → in_step (handleWheel deltaY w).
Proof.
  intros (Hc & Hr & Hsync). unfold handleWheel. case_decide as Hs; [done|].
  destruct w; simpl in *; subst. by destruct (deltaY <? 0).
Qed.

Lemma in_step_touchStart y w : in_step w → in_step (handleTouchStart y w).
Proof.
  intros (Hc & Hr & Hsync). unfold handleTouchStart. case_decide as Hs; [done|].
  by destruct w; simpl in *; subst.
Qed.

Lemma in_step_touchMove y w : in_step w → in_step (handleTouchMove y w).
Proof.
  intros (Hc & Hr & Hsync). unfold handleTouchMove. case_decide as Hs; [done|].
  cbv zeta. case_decide as Hsteps; [|by destruct w].
  clear Hsteps.
  generalize (touchAccumulated
                (set_touchStartY y (set_touchAccumulated (touchAccumulated w + (touchStartY w - y)) w))
              `quot` 30).
  intros steps. destruct w; unfold in_step, countdown_ok in *; cbn in *. subst. done.
Qed.

Lemma in_step_action now random w :
  invariant w → in_step w → in_step (handleAction now random w).
Proof.
  intros Hinv (Hc & Hr & Hsync). unfold handleAction. destruct (state w) eqn:Hs; try done.
  - destruct Hinv as [Hdur _]. destruct w; unfold in_step, countdown_ok in *; simpl in *.
    subst. repeat split; try done; lia.
  - unfold respondToAttentionCheck. rewrite decide_False by (by intros []).
    unfold clearAttentionCheck, clearTimer.
    destruct w; unfold in_step, countdown_ok in *; simpl in *. subst.
    destruct attentionTimeout0, attentionBarInterval0; simpl; repeat split; try done; lia.
Qed.

Lemma in_step_confirm stayedBored now uuid w :
  state w = Completed → in_step w → in_step (confirmCompletion stayedBored now uuid w).
Proof.
  intros Hs (Hc & Hr & Hsync). unfold confirmCompletion, saveSession.
  destruct w; unfold in_step, countdown_ok in *; simpl in *. subst. done.
Qed.

Lemma in_step_dismiss w : state w = Failed → in_step w → in_step (dismissFailed w).
Proof.
  intros Hs (Hc & Hr & Hsync). destruct w; unfold in_step, countdown_ok in *; simpl in *.
  subst. done.
Qed.

Lemma in_step_bar start now w : in_step w → in_step (onAttentionBar start now w).
Proof. intros H. by destruct w. Qed.

Lemma in_step_timeout h now uuid w :
  invariant w → in_step w → live_callback h w = Some OnAttentionTimeout →
  in_step (failSession now uuid (clearTimer h w)).
Proof.
  intros Hinv (_ & Hr & _) Hlive.
  destruct (timeout_fires h now uuid w Hinv Hlive) as (_ & Hs & _ & _ & _ & _ & Hd & Hrem & _).
  unfold handle in Hs, Hd, Hrem. rewrite Hlive in Hs, Hd, Hrem.
  split; [|split].
  - unfold countdown_ok. rewrite Hs, Hrem, Hd. done.
  - destruct (failSession_frame now uuid (clearTimer h w)) as [-> _]. by destruct w.
  - apply failSession_sync.
Qed.

Lemma in_step_import now raw w : in_step w → in_step (handleImport now raw w).
Proof.
  intros (Hc & Hr & Hsync). unfold handleImport.
  destruct (ImportFacts.importData_storage now raw (storage w)) as [(res & Heq & Hres)|Heq].
  - rewrite Heq, Hres. destruct w; unfold in_step, countdown_ok in *; simpl in *. done.
  - destruct (importData now raw (storage w)) as [[result|] st]; simpl in Heq; subst st.
    + destruct (success result) eqn:Hres.
      * destruct w; unfold in_step, countdown_ok in *; simpl in *. done.
      * destruct w; unfold in_step, countdown_ok in *; simpl in *. done.
    + destruct w; unfold in_step, countdown_ok in *; simpl in *. done.
Qed.

Lemma in_step_handle e w : invariant w → in_step w → in_step (handle e w).
Proof.
  intros Hinv Hstep.
  destruct e as [deltaY|y|y|now random|stayedBored now uuid| |h now uuid|now raw];
    unfold handle.
  - by apply in_step_wheel.
  - by apply in_step_touchStart.
  - by apply in_step_touchMove.
  - by apply in_step_action.
  - case_decide as Hs; [|done]. by apply in_step_confirm.
  - case_decide as Hs; [|done]. by apply in_step_dismiss.
  - destruct (live_callback h w) as [[|start|]|] eqn:Hlive.
    + pose proof (live_callback_state h _ w Hinv Hlive) as Hs.
      destruct Hstep as (Hc & Hr & Hsync).
      destruct (onTick_storage now w) as (Hst & Hresp & Hdays).
      split; [by apply countdown_onTick|]. by rewrite Hst, Hresp, Hdays.
    + by apply in_step_bar.
    + by apply in_step_timeout.
    + done.
  - by apply in_step_import.
Qed.

Lemma reachable_in_step w : reachable w → in_step w.
Proof.
  induction 1 as [st now|e w Hw IH]; [apply in_step_init|].
  apply in_step_handle; [by apply reachable_invariant | done].
Qed.

(** X12. In every reachable state the live timers are those of the state:
    none in idle, completed and failed; a tick callback is live only while
    running or in an attention check, the progress-bar and timeout callbacks
    only in an attention check; and at most three timers are live. *)
Theorem timers_follow_state w :
  reachable w →
  (timers w = [] ↔ state w = Idle ∨ state w = Completed ∨ state w = Failed) ∧
  (∀ h cb, live_callback h w = Some cb →
     match cb with
     | OnTick => state w = Running ∨ state w = AttentionCheck
     | OnAttentionBar _ | OnAttentionTimeout => state w = AttentionCheck
     end) ∧
  (length (timers w) ≤ 3)%nat.
Proof.
  intros Hw. pose proof (reachable_invariant w Hw) as Hinv.
  split; [|split].
  - destruct Hinv as [_ Ht]. unfold timers_of in Ht. destruct (state w).
    + destruct Ht as (-> & _). split; auto.
    + destruct Ht as (h & -> & _). split; [done|]. by intros [|[|]].
    + destruct Ht as (h & hb & ht & start & -> & _). split; [done|]. by intros [|[|]].
    + destruct Ht as (-> & _). split; auto.
    + destruct Ht as (-> & _). split; auto.
  - intros h cb. by apply live_callback_state.
  - destruct Hinv as [_ Ht]. unfold timers_of in Ht. destruct (state w).
    + destruct Ht as (-> & _). simpl. lia.
    + destruct Ht as (h & -> & _). simpl. lia.
    + destruct Ht as (h & hb & ht & start & -> & _). simpl. lia.
    + destruct Ht as (-> & _). simpl. lia.
    + destruct Ht as (-> & _). simpl. lia.
Qed.

(** X13. In every reachable state the countdown is that of the state: the
    whole duration in idle and failed, 0 in completed, from 1 to the whole
    duration while running or in an attention check; it is always from 0 to
    3600 seconds. *)
Theorem countdown_follows_state w :
  reachable w →
  match state w with
  | Idle | Failed => remainingSeconds w = durationMinutes w * 60
  | Completed => remainingSeconds w = 0
  | Running | AttentionCheck => 1 ≤ remainingSeconds w ≤ durationMinutes w * 60
  end ∧
  0 ≤ remainingSeconds w ≤ 3600.
Proof.
  intros Hw. destruct (reachable_invariant w Hw) as [Hdur _].
  destruct (reachable_in_step w Hw) as (Hc & _). split; [exact Hc|].
  unfold countdown_ok in Hc. destruct (state w); lia.
Qed.

(** X14. In every reachable state the completed-day set that the component
    shows is the one of the stored sessions. *)
Theorem completed_days_in_sync w :
  reachable w →
  completedDays w = getCompletedDays (sessions (loadData (storage w))).
Proof. intros Hw. by destruct (reachable_in_step w Hw) as (_ & _ & H). Qed.

(** X15. The action in idle starts a session: the state becomes running, the
    countdown is the whole duration, the duration is kept, the count of
    answered checks is 0, the start time is the instant of the action, the
    next attention check is 30 + floor(random * 91) seconds ahead, the one-
    second interval is the only live timer, and nothing is stored. *)
Theorem start_from_idle w now random :
  reachable w → state w = Idle →
  state (handle (Action now random) w) = Running ∧
  remainingSeconds (handle (Action now random) w) = durationMinutes w * 60 ∧
  durationMinutes (handle (Action now random) w) = durationMinutes w ∧
  attentionChecksResponded (handle (Action now random) w) = 0 ∧
  sessionStartTime (handle (Action now random) w) = toISOString now ∧
  nextAttentionCheck (handle (Action now random) w) = 30 + Qfloor (random * 91) ∧
  timers (handle (Action now random) w) = [(nextHandle w, OnTick)] ∧
  storage (handle (Action now random) w) = storage w.
Proof.
  intros Hw Hs. pose proof (reachable_invariant w Hw) as Hinv.
  simpl. unfold handleAction. rewrite Hs.
  destruct w; open_inv Hinv. subst. by destruct Htimers as (-> & _).
Qed.

(** X16. The action during an attention check answers it: the state is
    running again, the count of answered checks is one more, the countdown
    is untouched, the next check is drawn anew, only the one-second interval
    stays live, and nothing is stored. *)
Theorem respond_in_time w now random :
  reachable w → state w = AttentionCheck →
  state (handle (Action now random) w) = Running ∧
  attentionChecksResponded (handle (Action now random) w) = attentionChecksResponded w + 1 ∧
  remainingSeconds (handle (Action now random) w) = remainingSeconds w ∧
  nextAttentionCheck (handle (Action now random) w) = 30 + Qfloor (random * 91) ∧
  (∃ h, timers (handle (Action now random) w) = [(h, OnTick)]) ∧
  attentionTimeout (handle (Action now random) w) = None ∧
  attentionBarInterval (handle (Action now random) w) = None ∧
  storage (handle (Action now random) w) = storage w.
Proof.
  intros Hw Hs. pose proof (reachable_invariant w Hw) as Hinv.
  simpl. unfold handleAction. rewrite Hs.
  unfold respondToAttentionCheck. rewrite decide_False by (rewrite Hs; by intros []).
  destruct w; open_inv Hinv. subst.
  destruct Htimers as (h & hb & ht & start & -> & -> & -> & -> & Hlt & Hnext).
  unfold clearAttentionCheck, clearTimer; simpl. eqbs. repeat split; try done. by exists h.
Qed.

(** X17. A tick of the one-second interval stores nothing.  At the last
    second it completes the session, also during an attention check, and
    leaves no timer live; before that it takes one second off the countdown
    and leaves the state alone, except that it opens an attention check when
    the session is running and the check is due. *)
Theorem tick_counts_down w h now uuid :
  reachable w → live_callback h w = Some OnTick →
  storage (handle (TimerFires h now uuid) w) = storage w ∧
  (remainingSeconds w ≤ 1 →
   state (handle (TimerFires h now uuid) w) = Completed ∧
   remainingSeconds (handle (TimerFires h now uuid) w) = 0 ∧
   timers (handle (TimerFires h now uuid) w) = []) ∧
  (1 < remainingSeconds w →
   remainingSeconds (handle (TimerFires h now uuid) w) = remainingSeconds w - 1 ∧
   state (handle (TimerFires h now uuid) w) =
     if decide (state w = Running ∧ nextAttentionCheck w ≤ 1) then AttentionCheck
     else state w).
Proof.
  intros Hw Hlive. pose proof (reachable_invariant w Hw) as Hinv.
  pose proof (live_callback_state h _ w Hinv Hlive) as Hs.
  simpl. rewrite Hlive. split; [apply onTick_storage|].
  destruct w; open_inv Hinv.
  unfold onTick, completeTimer, triggerAttentionCheck, cleanup, clearAttentionCheck,
    clearTimer, setTimer; simpl.
  destruct Hs as [-> | ->].
  - destruct Htimers as (h0 & -> & -> & -> & -> & Hnext). simpl.
    split; intros Hr; tick_case.
  - destruct Htimers as (h0 & hb & ht & start & -> & -> & -> & -> & Hlt & Hnext). simpl.
    split; intros Hr; tick_case.
Qed.

(** X18. Either confirmation after the countdown returns to idle with the
    countdown reset and no live timer, and appends exactly one session to
    the stored list: the start time and the duration of the session,
    [completed] as confirmed, [completedAt] the instant of the confirmation
    when confirmed and [null] otherwise, no failed check, and the count of
    answered checks.  The stored current streak is the one shown. *)
Theorem confirm_after_countdown w stayedBored now uuid :
  reachable w → state w = Completed →
  state (handle (ConfirmButton stayedBored now uuid) w) = Idle ∧
  remainingSeconds (handle (ConfirmButton stayedBored now uuid) w) = durationMinutes w * 60 ∧
  timers (handle (ConfirmButton stayedBored now uuid) w) = [] ∧
  sessions (loadData (storage (handle (ConfirmButton stayedBored now uuid) w))) =
    sessions (loadData (storage w)) ++
    [ {| id := VStr uuid;
         startTime := VStr (sessionStartTime w);
         duration := durationMinutes w;
         completed := stayedBored;
         completedAt := if stayedBored then VStr (toISOString now) else VNull;
         failedAttentionCheck := VBool false;
         Store.attentionChecksResponded := VNum (attentionChecksResponded w) |} ] ∧
  Store.currentStreak (loadData (storage (handle (ConfirmButton stayedBored now uuid) w))) =
    currentStreak (handle (ConfirmButton stayedBored now uuid) w).
Proof.
  intros Hw Hs. pose proof (reachable_invariant w Hw) as Hinv.
  simpl. rewrite decide_True by done. unfold confirmCompletion, saveSession.
  destruct w; open_inv Hinv. subst. by destruct Htimers as (-> & _).
Qed.

Lemma failed_session_controller_record uuid w :
  1 ≤ durationMinutes w ≤ 60 → 0 ≤ attentionChecksResponded w →
  controller_record (failed_session uuid w).
Proof.
  intros Hd Hr. split; [|split; [done|]].
  - split; [by eexists | by eexists].
  - split; simpl; [by intros [? _] | by split].
Qed.

Lemma confirmed_session_controller_record stayedBored now uuid w :
  1 ≤ durationMinutes w ≤ 60 → 0 ≤ attentionChecksResponded w →
  controller_record (confirmed_session stayedBored now uuid w).
Proof.
  intros Hd Hr. split; [|split; [done|]].
  - split; [by eexists | by eexists].
  - destruct stayedBored; split; simpl; try (by intros [_ ?]); by split.
Qed.

Lemma handle_appends e w :
  invariant w → in_step w → is_import e = false →
  ∃ news, sessions (loadData (storage (handle e w))) =
            sessions (loadData (storage w)) ++ news ∧
          (length news ≤ 1)%nat ∧ Forall controller_record news.
Proof.
  intros Hinv (_ & Hresp & _).
  assert (Hsame : ∀ w', sessions (loadData (storage w')) = sessions (loadData (storage w)) →
            ∃ news, sessions (loadData (storage w')) =
                      sessions (loadData (storage w)) ++ news ∧
                    (length news ≤ 1)%nat ∧ Forall controller_record news).
  { intros w' ->. exists []. rewrite app_nil_r. repeat split; [simpl; lia | done]. }
  assert (Hone : ∀ w' s, sessions (loadData (storage w')) =
                           sessions (loadData (storage w)) ++ [s] →
                         controller_record s →
            ∃ news, sessions (loadData (storage w')) =
                      sessions (loadData (storage w)) ++ news ∧
                    (length news ≤ 1)%nat ∧ Forall controller_record news).
  { intros w' s -> Hs. exists [s]. repeat split; [done | by constructor]. }
  destruct e as [deltaY|y|y|now random|stayedBored now uuid| |h now uuid|now raw];
    simpl; intros Himport; try done.
  - apply Hsame. unfold handleWheel. case_decide; [done|]. by destruct w, (deltaY <? 0).
  - apply Hsame. unfold handleTouchStart. case_decide; [done|]. by destruct w.
  - apply Hsame. unfold handleTouchMove. case_decide; [done|]. destruct w; simpl.
    by case_decide.
  - apply Hsame. unfold handleAction. destruct (state w) eqn:Hs; try done.
    unfold respondToAttentionCheck. rewrite decide_False by (by intros []).
    unfold clearAttentionCheck, clearTimer. frame w.
  - case_decide; [|by apply Hsame].
    apply (Hone _ (confirmed_session stayedBored now uuid w)).
    + unfold confirmCompletion, saveSession. by destruct w.
    + apply confirmed_session_controller_record; [apply Hinv | done].
  - apply Hsame. case_decide; [|done]. by destruct w.
  - destruct (live_callback h w) as [[|start|]|] eqn:Hlive; try by apply Hsame.
    + apply Hsame. by destruct (onTick_storage now w) as [-> _].
    + destruct (timeout_fires h now uuid w Hinv Hlive) as (_ & _ & _ & _ & _ & _ & _ & _ & Hs).
      simpl in Hs. rewrite Hlive in Hs.
      apply (Hone _ (failed_session uuid w)); [done|].
      apply failed_session_controller_record; [apply Hinv | done].
Qed.

Lemma run_appends events : ∀ w,
  reachable w →
  Forall (λ e, is_import e = false) events →
  ∃ news, sessions (loadData (storage (run events w))) =
            sessions (loadData (storage w)) ++ news ∧
          (length news ≤ length events)%nat ∧ Forall controller_record news.
Proof.
  induction events as [|e events IH]; intros w Hw Hevents.
  - exists []. rewrite app_nil_r. by repeat split.
  - apply Forall_cons in Hevents as [He Hevents]. simpl.
    destruct (handle_appends e w (reachable_invariant w Hw) (reachable_in_step w Hw) He)
      as (news1 & H1 & Hlen1 & Hall1).
    destruct (IH (handle e w) (reachable_step e w Hw) Hevents) as (news2 & H2 & Hlen2 & Hall2).
    exists (news1 ++ news2). rewrite H2, H1, <- app_assoc.
    split; [done|]. split; [rewrite length_app; lia | by apply Forall_app].
Qed.

(** X19. The state machine.  An event leaves the state of a reachable
    component as it is, or moves it along one of the arrows: idle to running
    by the action; running to attention-check or completed by a timer;
    attention-check to running by the action, to failed or completed by a
    timer; completed to idle by a confirmation; failed to idle by the
    dismissal. *)
Theorem state_transitions e w :
  reachable w →
  state (handle e w) = state w ∨ edge e (state w) (state (handle e w)) = true.
Proof.
  intros Hw. pose proof (reachable_invariant w Hw) as Hinv.
  destruct e as [deltaY|y|y|now random|stayedBored now uuid| |h now uuid|now raw];
    unfold handle.
  - left. unfold handleWheel. case_decide; [done|]. by destruct w, (deltaY <? 0).
  - left. unfold handleTouchStart. case_decide; [done|]. by destruct w.
  - left. unfold handleTouchMove. case_decide; [done|]. cbv zeta.
    case_decide; by destruct w.
  - unfold handleAction. destruct (state w) eqn:Hs; try by left.
    + right. by destruct w.
    + right. unfold respondToAttentionCheck. rewrite decide_False by (by intros []).
      unfold clearAttentionCheck, clearTimer. frame w.
  - case_decide as Hs; [|by left]. right. rewrite Hs. by destruct w.
  - case_decide as Hs; [|by left]. right. rewrite Hs. by destruct w.
  - destruct (live_callback h w) as [[|start|]|] eqn:Hlive; [| |  |by left].
    + pose proof (live_callback_state h _ w Hinv Hlive) as Hs.
      unfold onTick, completeTimer, triggerAttentionCheck, cleanup, clearAttentionCheck,
        clearTimer, setTimer.
      destruct Hs as [Hs|Hs]; rewrite Hs; destruct w; cbn in Hs |- *; subst;
        repeat (match goal with
                | |- context [if ?c then _ else _] => destruct c eqn:?; cbn
                | |- context [match ?x with _ => _ end] => destruct x eqn:?; cbn
                end); auto.
    + left. by destruct w.
    + destruct (timeout_fires h now uuid w Hinv Hlive) as (Hs & Hs' & _).
      unfold handle in Hs'. rewrite Hlive in Hs'. right. by rewrite Hs, Hs'.
  - left. unfold handleImport.
    destruct (importData now raw (storage w)) as [[result|] st]; [|by destruct w].
    destruct (success result); by destruct w.
Qed.

(** X20. Every session the controller stores is well formed: over any
    storage and any events other than imports, the stored list is the
    initial one followed by at most one new record per event, each typed as
    the interface declares, with a duration in 1..60, and within the record
    invariant. *)
Theorem controller_records_well_formed st mountedAt events :
  Forall (λ e, is_import e = false) events →
  ∃ news,
    sessions (loadData (storage (run events (init mountedAt (initial st))))) =
      sessions (loadData st) ++ news ∧
    (length news ≤ length events)%nat ∧
    Forall controller_record news.
Proof. intros Hevents. apply (run_appends events); [constructor | done]. Qed.

(** X21. East of Greenwich and on it, confirming a completed session makes
    today a completed day and the current streak at least 1, shown and
    stored, provided the instant of the confirmation is read back from its
    ISO string. *)
Theorem completion_today_counts w now uuid :
  0 ≤ tzOffsetMinutes < 1440 →
  Date_new (VStr (toISOString now)) = Some now →
  toISOString now ≠ "" →
  formatLocalDate now ∈ completedDays (confirmCompletion true now uuid w) ∧
  1 ≤ currentStreak (confirmCompletion true now uuid w) ∧
  1 ≤ Store.currentStreak (loadData (storage (confirmCompletion true now uuid w))).
Proof.
  intros Htz Hdate Hiso.
  set (s := confirmed_session true now uuid w).
  set (ss := sessions (loadData (storage w)) ++ [s]).
  assert (Hdays : completedDays (confirmCompletion true now uuid w) = getCompletedDays ss).
  { unfold confirmCompletion, saveSession. by destruct w. }
  assert (Hcur : currentStreak (confirmCompletion true now uuid w) =
                 streaks_current (recalculateStreaks now ss)).
  { unfold confirmCompletion, saveSession. by destruct w. }
  assert (Hstored : Store.currentStreak (loadData (storage (confirmCompletion true now uuid w))) =
                    streaks_current (recalculateStreaks now ss)).
  { unfold confirmCompletion, saveSession. by destruct w. }
  assert (Hin : formatLocalDate now ∈ getCompletedDays ss).
  { apply StreakFacts.elem_of_getCompletedDays. exists s.
    split; [apply elem_of_app; right; by apply list_elem_of_singleton|].
    split; [done|]. split.
    - simpl. apply negb_true_iff, String.eqb_neq. done.
    - unfold toLocalDateString. simpl. by rewrite Hdate. }
  rewrite Hdays, Hcur, Hstored. split; [done|].
  destruct (StreakFacts.recalculateStreaks_current now ss) as (H1 & _).
  simpl in H1. rewrite StreakFacts.localDay_Date_of_day_east in H1 by done.
  destruct (H1 Hin) as (Hn & _ & Hgap).
  assert (streaks_current (recalculateStreaks now ss) ≠ 0); [|lia].
  intros H0. rewrite H0 in Hgap. apply Hgap.
  by replace (localDay now - 0) with (localDay now) by lia.
Qed.

(** X22. For a draw in [0, 1) the next attention check is scheduled from 30
    to 120 seconds ahead. *)
Theorem next_check_between_30_and_120 random w :
  (0 <= random)%Q → (random < 1)%Q →
  30 ≤ nextAttentionCheck (scheduleNextAttentionCheck random w) ≤ 120.
Proof.
  intros H0 H1.
  assert (Heq : nextAttentionCheck (scheduleNextAttentionCheck random w) =
                30 + Qfloor (random * 91)) by (by destruct w).
  rewrite Heq. clear Heq.
  assert (Hlo : 0 ≤ Qfloor (random * 91)).
  { replace 0 with (Qfloor 0) by done. apply Qfloor_resp_le.
    apply Qmult_le_0_compat; [done | discriminate]. }
  assert (Hhi : Qfloor (random * 91) < 91).
  { rewrite Zlt_Qlt. eapply Qle_lt_trans; [apply Qfloor_le|].
    exact (Qmult_lt_compat_r random 1 91 eq_refl H1). }
  lia.
Qed.

(** X23. The progress bar of an attention check is never negative, is at
    most 100 when the clock is not before the start of the check, and is
    empty from 10 seconds after the start on. *)
Theorem progress_bar_range startTime now w :
  (0 <= attentionProgress (onAttentionBar startTime now w))%Q ∧
  (startTime ≤ now → (attentionProgress (onAttentionBar startTime now w) <= 100)%Q) ∧
  (startTime + 10000 ≤ now → (attentionProgress (onAttentionBar startTime now w) == 0)%Q).
Proof.
  destruct w; simpl. split; [apply Q.le_max_l|]. split.
  - intros H. apply Q.max_lub; [discriminate|].
    unfold Qle, Qminus, Qplus, Qmult, Qdiv, Qinv, Qopp, inject_Z; simpl. lia.
  - intros H. apply Q.max_l.
    unfold Qle, Qminus, Qplus, Qmult, Qdiv, Qinv, Qopp, inject_Z; simpl. lia.
Qed.

End WithRuntime.
End MoreTimerFacts.

(* ===================================================================== *)
(** * The display, the streak calendar and the theme *)
(* ===================================================================== *)

Module ViewFacts.
Import Store Spec Timer TimerFacts View ThemeStore.

Section WithRuntime.
Context `{RT : Runtime}.

Lemma display_table :
  Forall (λ r, String.length (display r) = 5%nat ∧
               String.get 2 (display r) = Some ":"%char ∧
               read_display (display r) = Some r) (seqZ 0 3601).
Proof. apply (bool_decide_unpack _). vm_compute. exact I. Qed.

(** X24. In every reachable state the displayed time has the form MM:SS,
    five characters with the colon in the middle, and reads back as the
    remaining seconds. *)
Theorem display_reads_back w :
  reachable w →
  String.length (displayTime w) = 5%nat ∧
  String.get 2 (displayTime w) = Some ":"%char ∧
  read_display (displayTime w) = Some (remainingSeconds w).
Proof.
  intros Hw. destruct (reachable_invariant w Hw) as [Hdur _].
  pose proof (MoreTimerFacts.reachable_in_step w Hw) as (Hc & _).
  assert (Hr : 0 ≤ remainingSeconds w ≤ 3600).
  { unfold ControllerSpec.countdown_ok in Hc. destruct (state w); lia. }
  pose proof display_table as Hall. rewrite Forall_forall in Hall.
  apply Hall, elem_of_seqZ. lia.
Qed.

Lemma localDay_setDate_back i t : localDay (setDate_back i t) = localDay t - Z.of_nat i.
Proof.
  unfold localDay, setDate_back.
  replace (t - Z.of_nat i * msPerDay + tzOffsetMinutes * 60000)
    with (t + tzOffsetMinutes * 60000 + (- Z.of_nat i) * msPerDay) by lia.
  rewrite Z.div_add by done. lia.
Qed.

(** X25. The streak calendar has fourteen entries, the days from 13 days ago
    to today in this order, each flagged when it is in the completed-day set
    of the component; in a reachable state a day is flagged exactly when
    some stored session was completed on it. *)
Theorem streak_calendar now w :
  getStreakDays now w =
    (λ i, (Some (localDay now - i),
           bool_decide (Some (localDay now - i) ∈ completedDays w))) <$> reverse (seqZ 0 14) ∧
  (reachable w →
   ∀ day flag, (Some day, flag) ∈ getStreakDays now w →
     (flag = true ↔
      ∃ s, s ∈ sessions (loadData (storage w)) ∧ completed s = true ∧
           truthy (completedAt s) = true ∧ toLocalDateString (completedAt s) = Some day)).
Proof.
  assert (Heq : getStreakDays now w =
    (λ i, (Some (localDay now - i),
           bool_decide (Some (localDay now - i) ∈ completedDays w))) <$> reverse (seqZ 0 14)).
  { unfold getStreakDays, formatLocalDate.
    change (reverse (seq 0 14)) with [13; 12; 11; 10; 9; 8; 7; 6; 5; 4; 3; 2; 1; 0]%nat.
    change (reverse (seqZ 0 14)) with [13; 12; 11; 10; 9; 8; 7; 6; 5; 4; 3; 2; 1; 0].
    cbn [fmap list_fmap]. by rewrite !localDay_setDate_back. }
  split; [done|]. intros Hw day flag Hin. rewrite Heq in Hin.
  apply list_elem_of_fmap in Hin as (k & [= -> ->] & _).
  rewrite bool_decide_eq_true, (proj2 (proj2 (MoreTimerFacts.reachable_in_step w Hw))).
  apply StreakFacts.elem_of_getCompletedDays.
Qed.

(** X26. The theme.  What [setTheme] stores is what [getTheme] reads, and
    the document carries the class [dark] exactly for the dark theme; with
    nothing stored, or with a stored text that is neither theme name,
    [getTheme] follows the system preference; [toggleTheme] flips the
    variable and stores the flipped theme, and twice it returns to the
    start. *)
Theorem theme_round_trip t env :
  getTheme (setTheme t env) = t ∧
  (dark_class (setTheme t env) = true ↔ t = dark) ∧
  (stored_theme env = None → getTheme env = if prefers_dark env then dark else light) ∧
  (∀ stored, stored_theme env = Some stored → stored ≠ "dark" → stored ≠ "light" →
             getTheme env = if prefers_dark env then dark else light) ∧
  (∀ dark_var,
     fst (toggleTheme dark_var env) = negb dark_var ∧
     (getTheme (snd (toggleTheme dark_var env)) = dark ↔ dark_var = false) ∧
     fst (toggleTheme (fst (toggleTheme dark_var env)) (snd (toggleTheme dark_var env))) =
       dark_var).
Proof.
  split; [by destruct t|]. split; [by destruct t|]. split.
  - intros H. unfold getTheme. by rewrite H.
  - split.
    + intros stored H Hd Hl. unfold getTheme. rewrite H.
      apply String.eqb_neq in Hd, Hl. by rewrite Hd, Hl.
    + intros []; simpl; repeat split; done.
Qed.

End WithRuntime.
End ViewFacts.

(* ===================================================================== *)
(** * Worked examples of the further properties *)
(* ===================================================================== *)

Module MoreStreakExamples.
Import Store Spec StreakFacts MoreStreakFacts Examples MoreExamples.

Example week_shuffled_streaks :
  recalculateStreaks (RT := utc) jan6 week_shuffled =
  {| streaks_current := 5; streaks_longest := 5 |}.
Proof. vm_compute. reflexivity. Qed.

Lemma streaks_ignore_order_and_uncompleted_witness :
  recalculateStreaks (RT := utc) jan6 first_week =
  recalculateStreaks (RT := utc) jan6 week_shuffled.
Proof.
  apply (streaks_ignore_order_and_uncompleted (RT := utc) jan6 first_week week_shuffled).
  intros s Hs. unfold week_shuffled. rewrite elem_of_cons, elem_of_reverse.
  split; [by right|]. intros [->|H]; [discriminate Hs | exact H].
Defined.

Lemma utc_east : 0 ≤ tzOffsetMinutes (Runtime := utc) < 1440.
Proof. change (0 ≤ 0 < 1440). lia. Qed.

Lemma new_york_west : -1440 ≤ tzOffsetMinutes (Runtime := new_york) < 0.
Proof. change (-1440 ≤ -300 < 0). lia. Qed.

Lemma current_streak_east_of_greenwich_witness :
  counts_back (getCompletedDays (RT := utc) first_week) (localDay (RT := utc) jan6 - 1)
    (streaks_current (recalculateStreaks (RT := utc) jan6 first_week)).
Proof.
  destruct (current_streak_east_of_greenwich (RT := utc) jan6 first_week utc_east)
    as (_ & H & _).
  apply H.
  - apply (bool_decide_unpack _). vm_compute. exact I.
  - apply (bool_decide_unpack _). vm_compute. exact I.
Defined.

Lemma current_streak_west_of_greenwich_witness :
  streaks_current (recalculateStreaks (RT := new_york) jan6 today_only) = 0.
Proof.
  destruct (current_streak_west_of_greenwich (RT := new_york) jan6 today_only new_york_west)
    as (_ & _ & _ & H).
  apply H.
  - apply (bool_decide_unpack _). vm_compute. exact I.
  - apply (bool_decide_unpack _). vm_compute. exact I.
Defined.

End MoreStreakExamples.

Module MoreImportExamples.
Import Store Spec Json ImportFacts MoreImportFacts Examples MoreExamples.

Lemma import_failure_modes_witness :
  importData (RT := desk) jan6 "not json" (storage_of first_week) =
    (Normal invalid_format, storage_of first_week) ∧
  importData (RT := browser) jan6 (Sample.stringify no_sessions) (storage_of first_week) =
    (Normal missing_data, storage_of first_week) ∧
  importData (RT := desk) jan6 (Sample.stringify missing_completed) (storage_of first_week) =
    (Normal missing_data, storage_of first_week) ∧
  ∃ res st',
    importData (RT := desk) jan6 (Sample.stringify repeated_id) (storage_of first_week) =
      (Normal res, st') ∧ success res = true.
Proof.
  split; [|split; [|split]].
  - destruct (import_failure_modes (RT := desk) jan6 "not json" (storage_of first_week))
      as (H & _).
    apply H. vm_compute. reflexivity.
  - destruct (import_failure_modes (RT := browser) jan6 (Sample.stringify no_sessions)
                (storage_of first_week)) as (_ & H & _).
    apply (H no_sessions).
    + vm_compute. reflexivity.
    + discriminate.
    + intros entries. vm_compute. discriminate.
  - destruct (import_failure_modes (RT := desk) jan6 (Sample.stringify missing_completed)
                (storage_of first_week)) as (_ & _ & H & _).
    apply (H missing_completed [ entry (VStr "a") [] ]).
    + vm_compute. reflexivity.
    + vm_compute. reflexivity.
    + intros Hin. apply list_elem_of_singleton in Hin. discriminate Hin.
    + vm_compute. reflexivity.
  - destruct (import_failure_modes (RT := desk) jan6 (Sample.stringify repeated_id)
                (storage_of first_week)) as (_ & _ & _ & H).
    apply (H repeated_id [ entry (VStr "a") [("completed", VBool false)];
                           entry (VStr "a") [("completed", VBool false)] ]).
    + vm_compute. reflexivity.
    + vm_compute. reflexivity.
    + vm_compute. reflexivity.
Defined.

Lemma repeated_id_valid :
  valid_bundle (RT := desk) (Sample.stringify repeated_id)
    [ entry (VStr "a") [("completed", VBool false)];
      entry (VStr "a") [("completed", VBool false)] ].
Proof. exists repeated_id. repeat split; vm_compute; reflexivity. Qed.

(** An [id] that occurs twice in the bundle and is not stored is imported
    twice. *)
Lemma import_takes_the_new_ids_witness :
  ∃ news st',
    importData (RT := desk) jan6 (Sample.stringify repeated_id) (storage_of first_week) =
      (Normal {| success := true; message := import_message 2 0 |}, st') ∧
    sessions (loadData st') = first_week ++ news ∧
    length news = 2%nat.
Proof.
  destruct (import_takes_the_new_ids (RT := desk) jan6 (Sample.stringify repeated_id)
              (storage_of first_week) _ repeated_id_valid) as (news & st' & H & Hs & Hall).
  exists news, st'. split; [exact H|]. split; [exact Hs|].
  exact (Forall2_length _ _ _ Hall).
Defined.

Lemma week_export_is_export :
  is_export_of (RT := desk) (Sample.stringify week_export)
    (exportData (RT := desk) jan6 (storage_of first_week)).
Proof. exists week_export. repeat split; vm_compute; reflexivity. Qed.

Lemma export_import_round_trip_witness :
  ∃ st',
    importData (RT := desk) jan7 (Sample.stringify week_export) empty_storage =
      (Normal {| success := true; message := import_message 5 0 |}, st') ∧
    sessions (loadData st') = first_week.
Proof.
  destruct (export_import_round_trip (RT := desk) jan6 jan7 (Sample.stringify week_export)
              (storage_of first_week) empty_storage week_export_is_export eq_refl eq_refl)
    as (st' & H & Hs & _).
  exists st'. split; [exact H | exact Hs].
Defined.

Lemma last_duration_defaults_witness :
  getLastDuration (last_duration "abc") = 15 ∧
  getLastDuration (last_duration "61") = 15 ∧
  getLastDuration (last_duration "45") = 45 ∧
  getLastDuration (setLastDuration 20 empty_storage) = 20.
Proof.
  split; [|split; [|split]].
  - destruct (last_duration_defaults (last_duration "abc")) as (_ & _ & H & _).
    apply (H "abc"); reflexivity.
  - destruct (last_duration_defaults (last_duration "61")) as (_ & _ & _ & H & _).
    apply (H "61" 61); [reflexivity | reflexivity | lia].
  - destruct (last_duration_defaults (last_duration "45")) as (_ & _ & _ & _ & H & _).
    apply (H "45" 45); [reflexivity | discriminate | reflexivity | lia].
  - destruct (last_duration_defaults empty_storage) as (_ & _ & _ & _ & _ & H).
    apply H. lia.
Defined.

End MoreImportExamples.

Module MoreTimerExamples.
Import Store Spec ControllerSpec Timer TimerFacts MoreTimerFacts Examples MoreExamples.

Lemma at_check_reached : @reachable browser at_check.
Proof. apply reachable_run. constructor. Qed.

Lemma last_second_reached : @reachable browser last_second.
Proof. apply reachable_run. constructor. Qed.

Lemma finished_reached : @reachable browser finished.
Proof. apply reachable_run. constructor. Qed.

Lemma after_three_reached : @reachable browser after_three.
Proof. apply reachable_run. constructor. Qed.

Lemma mounted_reached : @reachable browser mounted.
Proof. constructor. Qed.

Example finished_state :
  state finished = Completed ∧ remainingSeconds finished = 0 ∧ durationMinutes finished = 1 ∧
  timers finished = [] ∧ sessions (loadData (storage finished)) = [].
Proof. vm_compute. repeat split. Qed.

Example last_second_state :
  state last_second = Running ∧ remainingSeconds last_second = 1 ∧
  nextAttentionCheck last_second = 61 ∧ timers last_second = [(1%nat, OnTick)].
Proof. vm_compute. repeat split. Qed.

Lemma timers_follow_state_witness :
  (timers at_check = [] ↔
   state at_check = Idle ∨ state at_check = Completed ∨ state at_check = Failed) ∧
  (length (timers at_check) ≤ 3)%nat.
Proof.
  destruct (timers_follow_state (RT := browser) at_check at_check_reached) as (H & _ & Hlen).
  split; [exact H | exact Hlen].
Defined.

Lemma countdown_follows_state_witness : 0 ≤ remainingSeconds last_second ≤ 3600.
Proof.
  destruct (countdown_follows_state (RT := browser) last_second last_second_reached)
    as (_ & H).
  exact H.
Defined.

Lemma completed_days_in_sync_witness :
  completedDays after_three =
  getCompletedDays (RT := browser) (sessions (loadData (storage after_three))).
Proof. exact (completed_days_in_sync (RT := browser) after_three after_three_reached). Defined.

Lemma start_from_idle_witness :
  state (handle (RT := browser) (Action jan5 (99 # 100)) mounted) = Running ∧
  remainingSeconds (handle (RT := browser) (Action jan5 (99 # 100)) mounted) = 15 * 60 ∧
  nextAttentionCheck (handle (RT := browser) (Action jan5 (99 # 100)) mounted) = 120.
Proof.
  destruct (start_from_idle (RT := browser) mounted jan5 (99 # 100) mounted_reached eq_refl)
    as (Hs & Hr & _ & _ & _ & Hn & _).
  split; [exact Hs|]. split; [exact Hr | exact Hn].
Defined.

Lemma respond_in_time_witness :
  state (handle (RT := browser) (Action (jan5 + 35000) 0) at_check) = Running ∧
  attentionChecksResponded (handle (RT := browser) (Action (jan5 + 35000) 0) at_check) = 1.
Proof.
  destruct (respond_in_time (RT := browser) at_check (jan5 + 35000) 0 at_check_reached eq_refl)
    as (Hs & Hr & _).
  split; [exact Hs | exact Hr].
Defined.

Lemma tick_counts_down_witness :
  state (handle (RT := browser) (TimerFires 1 (jan5 + 60000) "") last_second) = Completed ∧
  remainingSeconds (handle (RT := browser) (TimerFires 1 (jan5 + 31000) "") at_check) = 869.
Proof.
  split.
  - destruct (tick_counts_down (RT := browser) last_second 1 (jan5 + 60000) ""
                last_second_reached eq_refl) as (_ & H & _).
    assert (Hr : remainingSeconds last_second = 1) by (vm_compute; reflexivity).
    assert (Hle : remainingSeconds last_second ≤ 1) by (rewrite Hr; lia).
    destruct (H Hle) as (Hs & _). exact Hs.
  - destruct (tick_counts_down (RT := browser) at_check 1 (jan5 + 31000) ""
                at_check_reached eq_refl) as (_ & _ & H).
    assert (Hr : remainingSeconds at_check = 870) by (vm_compute; reflexivity).
    assert (Hlt : 1 < remainingSeconds at_check) by (rewrite Hr; lia).
    destruct (H Hlt) as (Hr' & _). rewrite Hr', Hr. reflexivity.
Defined.

Lemma confirm_after_countdown_witness :
  state (handle (RT := browser) (ConfirmButton true (jan5 + 61000) "c1") finished) = Idle ∧
  length (sessions (loadData (storage
            (handle (RT := browser) (ConfirmButton true (jan5 + 61000) "c1") finished)))) =
    1%nat.
Proof.
  destruct (confirm_after_countdown (RT := browser) finished true (jan5 + 61000) "c1"
              finished_reached eq_refl) as (Hs & _ & _ & Hss & _).
  split; [exact Hs|]. rewrite Hss, length_app. reflexivity.
Defined.

Lemma state_transitions_witness :
  state (handle (RT := browser) (TimerFires 3 (jan5 + 40000) "f1") at_check) =
    state at_check ∨
  edge (TimerFires 3 (jan5 + 40000) "f1") (state at_check)
    (state (handle (RT := browser) (TimerFires 3 (jan5 + 40000) "f1") at_check)) = true.
Proof.
  exact (state_transitions (RT := browser) (TimerFires 3 (jan5 + 40000) "f1") at_check
           at_check_reached).
Defined.

Lemma three_sessions_no_import : Forall (λ e, is_import e = false) three_sessions.
Proof. apply Forall_forall. intros e He. vm_compute in He. 
  repeat (apply elem_of_cons in He as [->|He]; [reflexivity|]). by apply elem_of_nil in He.
Qed.

Lemma controller_records_well_formed_witness :
  ∃ news,
    sessions (loadData (storage (run (RT := browser) three_sessions
                                   (init (RT := browser) jan5 (initial empty_storage))))) =
      sessions (loadData empty_storage) ++ news ∧
    Forall controller_record news.
Proof.
  destruct (controller_records_well_formed (RT := browser) empty_storage jan5 three_sessions
              three_sessions_no_import) as (news & H & _ & Hall).
  exists news. split; [exact H | exact Hall].
Defined.

Lemma browser_east : 0 ≤ tzOffsetMinutes (Runtime := browser) < 1440.
Proof. change (0 ≤ 0 < 1440). lia. Qed.

Lemma completion_today_counts_witness :
  1 ≤ currentStreak (confirmCompletion (RT := browser) true (jan5 + 61000) "c1" finished).
Proof.
  assert (Hdate : Date_new (Runtime := browser)
                    (VStr (toISOString (Runtime := browser) (jan5 + 61000))) =
                  Some (jan5 + 61000)) by (vm_compute; reflexivity).
  assert (Hiso : toISOString (Runtime := browser) (jan5 + 61000) ≠ "")
    by (vm_compute; discriminate).
  destruct (completion_today_counts (RT := browser) finished (jan5 + 61000) "c1"
              browser_east Hdate Hiso) as (_ & H & _).
  exact H.
Defined.

Lemma next_check_between_30_and_120_witness :
  30 ≤ nextAttentionCheck (scheduleNextAttentionCheck (99 # 100) mounted) ≤ 120.
Proof.
  apply next_check_between_30_and_120.
  - unfold Qle. simpl. lia.
  - unfold Qlt. simpl. lia.
Defined.

Lemma progress_bar_range_witness :
  (attentionProgress (onAttentionBar jan5 (jan5 + 5000) at_check) <= 100)%Q ∧
  (attentionProgress (onAttentionBar jan5 (jan5 + 10000) at_check) == 0)%Q.
Proof.
  split.
  - destruct (progress_bar_range jan5 (jan5 + 5000) at_check) as (_ & H & _). apply H. lia.
  - destruct (progress_bar_range jan5 (jan5 + 10000) at_check) as (_ & _ & H). apply H. lia.
Defined.

End MoreTimerExamples.

Module ViewExamples.
Import Store Spec Timer TimerFacts View ThemeStore ViewFacts Examples MoreExamples.

Example display_at_check : displayTime at_check = "14:30".
Proof. vm_compute. reflexivity. Qed.

Lemma display_reads_back_witness :
  String.length (displayTime at_check) = 5%nat ∧
  read_display (displayTime at_check) = Some (remainingSeconds at_check).
Proof.
  destruct (display_reads_back (RT := browser) at_check MoreTimerExamples.at_check_reached)
    as (Hlen & _ & Hread).
  split; [exact Hlen | exact Hread].
Defined.

Example calendar_after_three :
  getStreakDays (RT := browser) jan7 after_three =
  (λ d, (Some d, bool_decide (d = 19727))) <$> seqZ 19716 14.
Proof. vm_compute. reflexivity. Qed.

Lemma streak_calendar_witness :
  ∃ s, s ∈ sessions (loadData (storage after_three)) ∧ completed s = true ∧
       truthy (completedAt s) = true ∧
       toLocalDateString (RT := browser) (completedAt s) = Some 19727.
Proof.
  destruct (streak_calendar (RT := browser) jan7 after_three) as (_ & H).
  apply (H MoreTimerExamples.after_three_reached 19727 true); [|reflexivity].
  rewrite calendar_after_three. apply list_elem_of_fmap. exists 19727.
  split; [reflexivity | apply elem_of_seqZ; lia].
Defined.

Lemma theme_round_trip_witness :
  getTheme unknown_theme = dark ∧ getTheme (setTheme light unknown_theme) = light.
Proof.
  destruct (theme_round_trip light unknown_theme) as (Hset & _ & _ & Hother & _).
  split; [|exact Hset].
  apply (Hother "blue"); [reflexivity | discriminate | discriminate].
Defined.

End ViewExamples.
